(** * Kitchen: an order registry over a fixed-capacity bag of dishes

  Shallow embedding of [Kitchen.cpp] / [Kitchen.hpp].  [Kitchen] derives
  publicly from [ArrayBag<Dish>] and adds two private [int] members,
  [totalprep_time_] and [countelaborate].  A member function that
  changes the kitchen is embedded as a function from the state before
  the call to the returned value and the state after it; a [const]
  member as a function of the state. *)

From Stdlib Require Import ZArith Zpower Lia Ascii String.
From Stdlib Require Import Floats.SpecFloat.
From stdpp Require Import base decidable numbers option list strings pretty.

Local Open Scope Z_scope.

(** ** The C++ [int] type

  [int] is a 32-bit two's complement integer.  Arithmetic on it is
  modelled on [Z] with the wrap-around written out, which is what the
  usual targets do on signed overflow. *)

Module Int.
Definition MIN : Z := - 2 ^ 31.
Definition MAX : Z := 2 ^ 31 - 1.

Definition in_range (x : Z) : Prop := MIN <= x <= MAX.

Definition wrap (x : Z) : Z := (x + 2 ^ 31) mod 2 ^ 32 - 2 ^ 31.

Definition add (x y : Z) : Z := wrap (x + y).
Definition sub (x y : Z) : Z := wrap (x - y).
End Int.

(** ** The C++ [double] type

  [double] is IEEE 754 binary64.  The standard library's executable
  specification of binary floating point ([SpecFloat]) is used at
  precision 53 and exponent bound 1024, so that conversions, products
  and quotients round exactly as the hardware does. *)

Module Double.
Definition prec : Z := 53.
Definition emax : Z := 1024.

Definition t : Type := spec_float.

(** [static_cast<double>(n)] for an [int], and the implicit conversion of
    an [int] operand in mixed arithmetic.  It is exact. *)
Definition of_int (n : Z) : t := binary_normalize prec emax n 0 false.

Definition div (x y : t) : t := SFdiv prec emax x y.
Definition mul (x y : t) : t := SFmul prec emax x y.

(** [std::round]: the nearest integral value, halfway cases away from
    zero.  A finite double with a non-negative exponent is integral. *)
Definition round (x : t) : t :=
  match x with
  | S754_finite s m e =>
      if 0 <=? e then x
      else
        let d := 2 ^ (- e) in
        let q := Z.pos m / d in
        let r := Z.pos m mod d in
        let q' := if d <=? 2 * r then q + 1 else q in
        binary_normalize prec emax (cond_Zopp s q') 0 s
  | _ => x
  end.

(** Conversion of a [double] to [int] on return: the fraction is dropped.
    The conversion is undefined when the truncated value is not an [int];
    the usual targets then yield [INT_MIN]. *)
Definition to_int (x : t) : Z :=
  match x with
  | S754_zero _ => 0
  | S754_finite s m e =>
      let a := if 0 <=? e then Z.pos m * 2 ^ e else Z.pos m / 2 ^ (- e) in
      let v := cond_Zopp s a in
      if (Int.MIN <=? v) && (v <=? Int.MAX) then v else Int.MIN
  | _ => Int.MIN
  end.

(** A [double] literal with two decimals, such as [20.99], written as
    the number of hundredths: the literal and this quotient are both the
    double nearest to the decimal. *)
Definition of_hundredths (n : Z) : t := div (of_int n) (of_int 100).
End Double.

(** Equality of two doubles as values of the model.  On finite non-zero
    doubles it is what [==] decides. *)
#[global] Instance Double_eq_dec : EqDecision Double.t.
Proof. solve_decision. Defined.

(** ** The output stream

  [std::cout] is modelled by the text written to it so far.  The stream
  is in its default state for integers (decimal, no padding). *)

Definition ostream : Type := string.

Definition nl : string := String "010"%char EmptyString.

(** [os << "literal"] *)
Definition put_str (os : ostream) (s : string) : ostream := os +:+ s.

(** [os << n] for an [int]. *)
Definition put_int (os : ostream) (n : Z) : ostream := os +:+ pretty n.

(** [os << std::endl] *)
Definition endl (os : ostream) : ostream := os +:+ nl.

Definition two_digits (n : Z) : string :=
  if n <? 10 then "0" +:+ pretty n else pretty n.

(** The text of a [double] under [std::fixed] and [std::setprecision(2)]:
    the exact binary value rounded to hundredths, ties to even. *)
Definition show_fixed2 (x : Double.t) : string :=
  match x with
  | S754_zero s => if s then "-0.00" else "0.00"
  | S754_infinity s => if s then "-inf" else "inf"
  | S754_nan => "nan"
  | S754_finite s m e =>
      let hundredths :=
        if 0 <=? e then Z.pos m * 2 ^ e * 100
        else
          let d := 2 ^ (- e) in
          let q := Z.pos m * 100 / d in
          let r := (Z.pos m * 100) mod d in
          if (d <? 2 * r) || ((d =? 2 * r) && Z.odd q) then q + 1 else q in
      (if s then "-" else "") +:+ pretty (hundredths / 100) +:+ "."
        +:+ two_digits (hundredths mod 100)
  end.

(** [os << std::fixed << std::setprecision(2) << x] *)
Definition put_fixed2 (os : ostream) (x : Double.t) : ostream :=
  os +:+ show_fixed2 x.

(** ** Dishes *)

Inductive CuisineType : Type :=
| ITALIAN | MEXICAN | CHINESE | INDIAN | AMERICAN | FRENCH | OTHER.

#[global] Instance CuisineType_eq_dec : EqDecision CuisineType.
Proof. solve_decision. Defined.

Section kitchen.

(** The price of a dish is a [double] in the test driver.  The registry
    never computes with it; it only takes part in the comparison of two
    dishes, so it is kept abstract, with a decidable equality. *)
Context {Price : Type} `{!EqDecision Price}.

(** The capacity of the bag, a compile-time constant of [ArrayBag.hpp]. *)
Variable DEFAULT_CAPACITY : nat.

(** Modelled from the spec: the [Dish] value type, whose header
    [Dish.hpp] is missing.  A dish has a name, an ordered list of
    ingredient names, a preparation time (a non-negative [int]), a price
    and a cuisine tag drawn from a fixed enumeration; two dishes are
    equal iff every field compares equal, including the full ingredient
    list. *)
Record Dish : Type := mkDish {
  name_ : string;
  ingredients_ : list string;
  prep_time_ : Z;
  price_ : Price;
  cuisine_type_ : CuisineType
}.

#[global] Instance Dish_eq_dec : EqDecision Dish.
Proof. solve_decision. Defined.

(** Modelled from the spec: the read accessor of the ingredient list. *)
Definition getIngredients (d : Dish) : list string := ingredients_ d.

(** Modelled from the spec: the read accessor of the preparation time. *)
Definition getPrepTime (d : Dish) : Z := prep_time_ d.

(** Modelled from the spec: the string rendering of the cuisine tag, one
    of the seven labels. *)
Definition getCuisineType (d : Dish) : string :=
  match cuisine_type_ d with
  | ITALIAN => "ITALIAN"
  | MEXICAN => "MEXICAN"
  | CHINESE => "CHINESE"
  | INDIAN => "INDIAN"
  | AMERICAN => "AMERICAN"
  | FRENCH => "FRENCH"
  | OTHER => "OTHER"
  end.

(** ** The bag *)

(** Modelled from the spec: [ArrayBag<Dish>], whose header [ArrayBag.hpp]
    is missing.  It is a fixed-capacity, unordered collection with [add]
    (fails at capacity), [remove] (removes one value-equal item, fails if
    none is found), [contains], [clear] and a size query.  [Kitchen.cpp]
    reads the slots [items_[i]] directly, so the layout is part of the
    model: the bag is the list of its live slots
    [items_[0 .. item_count_ - 1]].  The base class knows nothing of the
    members that [Kitchen] adds, so none of its functions can change
    them. *)
Local Abbreviation ArrayBag := (list Dish).

(** Modelled from the spec: the size query, [item_count_]. *)
Definition getCurrentSize (b : ArrayBag) : Z := Z.of_nat (length b).

(** Modelled from the spec: the index of the first live slot that holds
    an item equal to [target], if there is one. *)
Definition getIndexOf (b : ArrayBag) (target : Dish) : option nat :=
  fst <$> list_find (λ y, y = target) b.

(** Modelled from the spec: the membership test. *)
Definition contains (b : ArrayBag) (an_entry : Dish) : bool :=
  bool_decide (is_Some (getIndexOf b an_entry)).

(** Modelled from the spec: [add] fills the next free slot and fails when
    the bag is at capacity. *)
Definition add (b : ArrayBag) (new_entry : Dish) : bool * ArrayBag :=
  if decide (length b < DEFAULT_CAPACITY)%nat
  then (true, b ++ [new_entry])
  else (false, b).

(** Modelled from the spec: [remove] takes out one item equal to
    [an_entry] and fails if there is none.  The bag being unordered, the
    slot of the first equal item is refilled with the last live item and
    the last slot is dropped. *)
Definition remove (b : ArrayBag) (an_entry : Dish) : bool * ArrayBag :=
  match getIndexOf b an_entry, last b with
  | Some found_index, Some last_item =>
      (true, take (length b - 1)%nat (<[found_index := last_item]> b))
  | _, _ => (false, b)
  end.

(** Modelled from the spec: [clear] empties the bag. *)
Definition clear (b : ArrayBag) : ArrayBag := [].

(** ** The kitchen *)

(** The state of a [Kitchen]: the inherited bag and the two members
    declared in [Kitchen.hpp]. *)
Record Kitchen : Type := mkKitchen {
  items_ : ArrayBag;
  totalprep_time_ : Z;
  countelaborate : Z
}.

(** [Kitchen::Kitchen()] *)
Definition Kitchen_new : Kitchen :=
  {| items_ := []; totalprep_time_ := 0; countelaborate := 0 |}.

(** The test both [newOrder] and [serveDish] apply to their argument:
    [getIngredients().size() >= 5 && getPrepTime() >= 60]. *)
Definition elaborate (d : Dish) : bool :=
  (5 <=? Z.of_nat (length (getIngredients d))) && (60 <=? getPrepTime d).

(** [Kitchen::newOrder] *)
Definition newOrder (k : Kitchen) (new_dish : Dish) : bool * Kitchen :=
  if contains (items_ k) new_dish then (false, k)
  else
    let '(added_successfully, b) := add (items_ k) new_dish in
    if added_successfully then
      (true,
       {| items_ := b;
          totalprep_time_ := Int.add (totalprep_time_ k) (getPrepTime new_dish);
          countelaborate :=
            if elaborate new_dish then Int.add (countelaborate k) 1
            else countelaborate k |})
    else
      (false,
       {| items_ := b;
          totalprep_time_ := totalprep_time_ k;
          countelaborate := countelaborate k |}).

(** [Kitchen::serveDish] *)
Definition serveDish (k : Kitchen) (dish : Dish) : bool * Kitchen :=
  if negb (contains (items_ k) dish) then (false, k)
  else
    let '(removed_successfully, b) := remove (items_ k) dish in
    if removed_successfully then
      (true,
       {| items_ := b;
          totalprep_time_ := Int.sub (totalprep_time_ k) (getPrepTime dish);
          countelaborate :=
            if elaborate dish then Int.sub (countelaborate k) 1
            else countelaborate k |})
    else
      (false,
       {| items_ := b;
          totalprep_time_ := totalprep_time_ k;
          countelaborate := countelaborate k |}).

(** [Kitchen::getPrepTimeSum] *)
Definition getPrepTimeSum (k : Kitchen) : Z := totalprep_time_ k.

(** [Kitchen::elaborateDishCount] *)
Definition elaborateDishCount (k : Kitchen) : Z := countelaborate k.

(** [Kitchen::calculateAvgPrepTime] *)
Definition calculateAvgPrepTime (k : Kitchen) : Z :=
  let dish_count := getCurrentSize (items_ k) in
  if dish_count =? 0 then 0
  else
    let avg_prep_time :=
      Double.div (Double.of_int (totalprep_time_ k)) (Double.of_int dish_count) in
    Double.to_int (Double.round avg_prep_time).

(** [Kitchen::calculateElaboratePercentage] *)
Definition calculateElaboratePercentage (k : Kitchen) : Double.t :=
  let dish_count := getCurrentSize (items_ k) in
  if dish_count =? 0 then Double.of_int 0
  else
    let elaborate_percentage :=
      Double.mul
        (Double.div (Double.of_int (countelaborate k)) (Double.of_int dish_count))
        (Double.of_int 100) in
    Double.div
      (Double.round (Double.mul elaborate_percentage (Double.of_int 100)))
      (Double.of_int 100).

(** The loop of [Kitchen::tallyCuisineTypes]: the live slots are visited
    from index 0 upwards. *)
Fixpoint tally_loop (slots : list Dish) (cuisine_type : string) (count : Z) : Z :=
  match slots with
  | [] => count
  | dish :: slots' =>
      tally_loop slots' cuisine_type
        (if String.eqb (getCuisineType dish) cuisine_type then count + 1 else count)
  end.

(** [Kitchen::tallyCuisineTypes] *)
Definition tallyCuisineTypes (k : Kitchen) (cuisine_type : string) : Z :=
  tally_loop (items_ k) cuisine_type 0.

(** The loop shared by the two release functions,
    [for (int i = getCurrentSize() - 1; i >= 0; --i)], with [n = i + 1]:
    when the item in slot [i] qualifies, [remove(items_[i])] is called on
    the bag, and the count goes up if it reports success.  Slot [i] is
    live whenever it is read, since an iteration lowers [i] by one and
    [item_count_] by one at most.  The counters of the loops of this file
    are bounded by the size of the bag, so they stay within [int]. *)
Fixpoint release_loop (qualifies : Dish → bool) (n : nat) (b : ArrayBag)
    (removed_count : Z) : Z * ArrayBag :=
  match n with
  | O => (removed_count, b)
  | S i =>
      match b !! i with
      | Some item =>
          if qualifies item then
            let '(removed, b') := remove b item in
            release_loop qualifies i b'
              (if removed then removed_count + 1 else removed_count)
          else release_loop qualifies i b removed_count
      | None => release_loop qualifies i b removed_count
      end
  end.

(** [Kitchen::releaseDishesBelowPrepTime] *)
Definition releaseDishesBelowPrepTime (k : Kitchen) (prep_time_threshold : Z)
    : Z * Kitchen :=
  if prep_time_threshold <? 0 then (0, k)
  else if prep_time_threshold =? 0 then
    (getCurrentSize (items_ k),
     {| items_ := clear (items_ k);
        totalprep_time_ := totalprep_time_ k;
        countelaborate := countelaborate k |})
  else
    let '(removed_count, b) :=
      release_loop (λ item, getPrepTime item <? prep_time_threshold)
        (length (items_ k)) (items_ k) 0 in
    (removed_count,
     {| items_ := b;
        totalprep_time_ := totalprep_time_ k;
        countelaborate := countelaborate k |}).

(** The chain of comparisons in [Kitchen::releaseDishesOfCuisineType]
    that maps the label to the enumeration. *)
Definition cuisine_of_label (cuisine_type : string) : option CuisineType :=
  if String.eqb cuisine_type "ITALIAN" then Some ITALIAN
  else if String.eqb cuisine_type "MEXICAN" then Some MEXICAN
  else if String.eqb cuisine_type "CHINESE" then Some CHINESE
  else if String.eqb cuisine_type "INDIAN" then Some INDIAN
  else if String.eqb cuisine_type "AMERICAN" then Some AMERICAN
  else if String.eqb cuisine_type "FRENCH" then Some FRENCH
  else if String.eqb cuisine_type "OTHER" then Some OTHER
  else None.

(** [Kitchen::releaseDishesOfCuisineType] *)
Definition releaseDishesOfCuisineType (k : Kitchen) (cuisine_type : string)
    : Z * Kitchen :=
  if String.eqb cuisine_type "ALL" then
    (getCurrentSize (items_ k),
     {| items_ := clear (items_ k);
        totalprep_time_ := totalprep_time_ k;
        countelaborate := countelaborate k |})
  else
    match cuisine_of_label cuisine_type with
    | None => (0, k)
    | Some _ =>
        let '(removed_count, b) :=
          release_loop (λ item, String.eqb (getCuisineType item) cuisine_type)
            (length (items_ k)) (items_ k) 0 in
        (removed_count,
         {| items_ := b;
            totalprep_time_ := totalprep_time_ k;
            countelaborate := countelaborate k |})
    end.

(** [Kitchen::kitchenReport], a [const] member: it reads the kitchen and
    writes to [std::cout]. *)
Definition kitchenReport (k : Kitchen) (cout : ostream) : ostream :=
  let italianCount := tallyCuisineTypes k "ITALIAN" in
  let mexicanCount := tallyCuisineTypes k "MEXICAN" in
  let chineseCount := tallyCuisineTypes k "CHINESE" in
  let indianCount := tallyCuisineTypes k "INDIAN" in
  let americanCount := tallyCuisineTypes k "AMERICAN" in
  let frenchCount := tallyCuisineTypes k "FRENCH" in
  let otherCount := tallyCuisineTypes k "OTHER" in
  let avgPrepTime := calculateAvgPrepTime k in
  let elaboratePercentage := calculateElaboratePercentage k in
  let cout := endl (put_int (put_str cout "ITALIAN: ") italianCount) in
  let cout := endl (put_int (put_str cout "MEXICAN: ") mexicanCount) in
  let cout := endl (put_int (put_str cout "CHINESE: ") chineseCount) in
  let cout := endl (put_int (put_str cout "INDIAN: ") indianCount) in
  let cout := endl (put_int (put_str cout "AMERICAN: ") americanCount) in
  let cout := endl (put_int (put_str cout "FRENCH: ") frenchCount) in
  let cout := endl (put_int (put_str cout "OTHER: ") otherCount) in
  let cout :=
    endl (put_int (put_str cout (nl +:+ "AVERAGE PREP TIME: ")) avgPrepTime) in
  endl (put_str (put_fixed2 (put_str cout "ELABORATE: ") elaboratePercentage) "%").

End kitchen.

(** * Vocabulary of the specification *)

Section vocabulary.

Context {Price : Type} `{!EqDecision Price}.
Variable DEFAULT_CAPACITY : nat.

(** The sum of the preparation times over a bag. *)
Definition prep_sum (b : list (Dish (Price := Price))) : Z :=
  foldr (λ d acc, getPrepTime d + acc) 0 b.

(** The number of dishes of a bag with at least 5 ingredients and a
    preparation time of at least 60. *)
Definition elaborate_total (b : list (Dish (Price := Price))) : Z :=
  Z.of_nat (length (filter (λ d, elaborate d) b)).

(** The two aggregates agree with a rescan of the bag that accumulates in
    [int] variables. *)
Definition aggregates_consistent (k : Kitchen (Price := Price)) : Prop :=
  getPrepTimeSum k = Int.wrap (prep_sum (items_ k))
  ∧ elaborateDishCount k = Int.wrap (elaborate_total (items_ k)).

(** The four mutating operations, and a run of a sequence of them. *)
Inductive Op : Type :=
| NewOrder (d : Dish (Price := Price))
| ServeDish (d : Dish (Price := Price))
| ReleaseBelow (prep_time_threshold : Z)
| ReleaseCuisine (cuisine_type : string).

Definition step (k : Kitchen (Price := Price)) (o : Op) : Kitchen :=
  match o with
  | NewOrder d => (newOrder DEFAULT_CAPACITY k d).2
  | ServeDish d => (serveDish k d).2
  | ReleaseBelow t => (releaseDishesBelowPrepTime k t).2
  | ReleaseCuisine s => (releaseDishesOfCuisineType k s).2
  end.

Definition run (ops : list Op) (k : Kitchen (Price := Price)) : Kitchen :=
  foldl step k ops.

(** A run in which every dish that enters the kitchen has a non-negative
    preparation time, and no increment of an aggregate leaves the range
    of [int]. *)
Definition increment_fits (k : Kitchen (Price := Price)) (o : Op) : Prop :=
  match o with
  | NewOrder d =>
      (newOrder DEFAULT_CAPACITY k d).1 = true →
      0 <= getPrepTime d
      ∧ totalprep_time_ k + getPrepTime d <= Int.MAX
      ∧ (elaborate d → countelaborate k + 1 <= Int.MAX)
  | _ => True
  end.

Fixpoint overflow_free (ops : list Op) (k : Kitchen (Price := Price)) : Prop :=
  match ops with
  | [] => True
  | o :: ops' => increment_fits k o ∧ overflow_free ops' (step k o)
  end.

(** The aggregates are at least the quantities of the bag, whose dishes
    have non-negative preparation times, and within the range of [int]. *)
Definition aggregates_dominate (k : Kitchen (Price := Price)) : Prop :=
  Forall (λ d, 0 <= getPrepTime d) (items_ k)
  ∧ prep_sum (items_ k) <= totalprep_time_ k <= Int.MAX
  ∧ elaborate_total (items_ k) <= countelaborate k <= Int.MAX.

(** The seven recognized labels, in the order of the report. *)
Definition cuisine_labels : list string :=
  ["ITALIAN"; "MEXICAN"; "CHINESE"; "INDIAN"; "AMERICAN"; "FRENCH"; "OTHER"].

(** The text of a list of lines, each one terminated by a newline. *)
Definition unlines (lines : list string) : string :=
  foldr (λ line rest, line +:+ nl +:+ rest) "" lines.

(** The report as the specification words it: one count line per label,
    a blank line, the average and the percentage. *)
Definition report_lines (k : Kitchen (Price := Price)) : list string :=
  ((λ label, label +:+ ": " +:+ pretty (tallyCuisineTypes k label))
     <$> cuisine_labels)
  ++ [ "";
       "AVERAGE PREP TIME: " +:+ pretty (calculateAvgPrepTime k);
       "ELABORATE: " +:+ show_fixed2 (calculateElaboratePercentage k) +:+ "%" ].

End vocabulary.

(** ** Exact rounding

  The reference against which the two rounded queries are measured. *)

(** The integer nearest to [t / n], halfway cases away from zero. *)
Definition round_half_away (t n : Z) : Z :=
  Z.sgn t * ((2 * Z.abs t + n) / (2 * n)).

(** The arithmetic of [Kitchen::calculateElaboratePercentage] on a kitchen
    that is not empty, as a function of the two numbers it reads. *)
Definition elaborate_percentage_of (count size : Z) : Double.t :=
  let elaborate_percentage :=
    Double.mul (Double.div (Double.of_int count) (Double.of_int size))
               (Double.of_int 100) in
  Double.div
    (Double.round (Double.mul elaborate_percentage (Double.of_int 100)))
    (Double.of_int 100).

(** Whether, for [count] elaborate dishes among [size], the percentage of
    the code is the double nearest to the exactly rounded number of
    hundredths, and is written as that number. *)
Definition percentage_exact (count size : Z) : bool :=
  let hundredths := round_half_away (10000 * count) size in
  bool_decide (elaborate_percentage_of count size = Double.of_hundredths hundredths)
  && bool_decide (show_fixed2 (Double.of_hundredths hundredths)
                  = pretty (hundredths / 100) +:+ "." +:+ two_digits (hundredths mod 100)).

(** [percentage_exact] for every size from 1 to [bound] and every count
    from 0 to the size. *)
Definition percentages_exact_up_to (bound : nat) : bool :=
  forallb
    (λ n, forallb (λ c, percentage_exact (Z.of_nat c) (Z.of_nat (S n)))
                  (seq 0 (S (S n))))
    (seq 0 bound).

(** The place of the rational [N / D] between the integers [m] and
    [m + 1], as the rounding of the binary64 operations records it:
    on [m], below, at or above the midpoint. *)
Definition located (N D m : Z) (l : location) : Prop :=
  match l with
  | loc_Exact => N = m * D
  | loc_Inexact Lt => m * D < N ∧ 2 * N < (2 * m + 1) * D
  | loc_Inexact Eq => 2 * N = (2 * m + 1) * D
  | loc_Inexact Gt => (2 * m + 1) * D < 2 * N ∧ N < (m + 1) * D
  end.

(** ** The kitchen of the test driver

    The four dishes of [test.cpp], with prices in hundredths, and a
    capacity of ten slots. *)

Definition dish1 : Dish (Price := Z) :=
  mkDish "Spaghetti" ["Pasta"; "Tomato Sauce"; "Basil"] 20 1250 ITALIAN.
Definition dish2 : Dish (Price := Z) :=
  mkDish "Beef Stew" ["Beef"; "Potatoes"; "Carrots"; "Onions"; "Garlic"]
    90 2099 AMERICAN.
Definition dish3 : Dish (Price := Z) :=
  mkDish "Tacos" ["Tortilla"; "Beef"; "Lettuce"] 15 999 MEXICAN.
Definition dish4 : Dish (Price := Z) :=
  mkDish "Pizza" ["Dough"; "Tomato Sauce"; "Cheese"] 30 1499 ITALIAN.

Definition test_kitchen : Kitchen (Price := Z) :=
  let k := Kitchen_new in
  let k := (newOrder 10 k dish1).2 in
  let k := (newOrder 10 k dish2).2 in
  let k := (newOrder 10 k dish3).2 in
  (newOrder 10 k dish4).2.

(** Three dishes with preparation times 59, 60 and 61, and the kitchen
    that holds them. *)
Definition dish59 : Dish (Price := Z) := mkDish "A" [] 59 100 OTHER.
Definition dish60 : Dish (Price := Z) := mkDish "B" [] 60 100 OTHER.
Definition dish61 : Dish (Price := Z) := mkDish "C" [] 61 100 OTHER.

Definition boundary_kitchen : Kitchen (Price := Z) :=
  run 10 [NewOrder dish59; NewOrder dish60; NewOrder dish61] Kitchen_new.

(** A second elaborate dish, and a kitchen in which two dishes out of four
    are elaborate. *)
Definition dish5 : Dish (Price := Z) :=
  mkDish "Cassoulet" ["Beans"; "Duck"; "Sausage"; "Pork"; "Garlic"; "Thyme"]
    120 2450 FRENCH.

Definition half_elaborate_kitchen : Kitchen (Price := Z) :=
  run 10 [NewOrder dish1; NewOrder dish2; NewOrder dish3; NewOrder dish5]
    Kitchen_new.

(** A run that orders, releases, orders again and serves. *)
Definition sample_run : list (Op (Price := Z)) :=
  [NewOrder dish1; NewOrder dish2; ReleaseBelow 0; NewOrder dish2;
   ServeDish dish2; NewOrder dish3].

(** A run that only orders and serves. *)
Definition orders_and_serves_run : list (Op (Price := Z)) :=
  [NewOrder dish1; NewOrder dish2; ServeDish dish1; NewOrder dish5].

(** The kitchen of the test driver with its slots in the opposite order. *)
Definition reversed_test_kitchen : Kitchen (Price := Z) :=
  {| items_ := reverse (items_ test_kitchen);
     totalprep_time_ := totalprep_time_ test_kitchen;
     countelaborate := countelaborate test_kitchen |}.

(** Two distinct dishes whose preparation time is the largest [int]. *)
Definition long_dish_a : Dish (Price := Z) := mkDish "A" [] Int.MAX 100 OTHER.
Definition long_dish_b : Dish (Price := Z) := mkDish "B" [] Int.MAX 100 OTHER.





(** ** The test driver

    [main] of [test.cpp]: it writes a heading, orders four dishes in a
    fresh kitchen, writes the report and returns 0.  The result is the
    text written to [std::cout] and the exit code. *)
Definition main (DEFAULT_CAPACITY : nat) : ostream * Z :=
  let cout : ostream := "" in
  let cout := endl (put_str cout "---- Testing kitchenReport Function ----") in
  let kitchen : Kitchen (Price := Double.t) := Kitchen_new in
  let dish1 :=
    mkDish "Spaghetti" ["Pasta"; "Tomato Sauce"; "Basil"] 20
      (Double.of_hundredths 1250) ITALIAN in
  let dish2 :=
    mkDish "Beef Stew" ["Beef"; "Potatoes"; "Carrots"; "Onions"; "Garlic"] 90
      (Double.of_hundredths 2099) AMERICAN in
  let dish3 :=
    mkDish "Tacos" ["Tortilla"; "Beef"; "Lettuce"] 15
      (Double.of_hundredths 999) MEXICAN in
  let dish4 :=
    mkDish "Pizza" ["Dough"; "Tomato Sauce"; "Cheese"] 30
      (Double.of_hundredths 1499) ITALIAN in
  let kitchen := (newOrder DEFAULT_CAPACITY kitchen dish1).2 in
  let kitchen := (newOrder DEFAULT_CAPACITY kitchen dish2).2 in
  let kitchen := (newOrder DEFAULT_CAPACITY kitchen dish3).2 in
  let kitchen := (newOrder DEFAULT_CAPACITY kitchen dish4).2 in
  let cout := kitchenReport kitchen cout in
  (cout, 0).

(** * Properties *)

(** ** Arithmetic on [int] *)

Lemma Int_wrap_in_range (x : Z) : Int.in_range (Int.wrap x).
Proof.
  unfold Int.in_range, Int.wrap, Int.MIN, Int.MAX.
  pose proof (Z.mod_pos_bound (x + 2 ^ 31) (2 ^ 32)). lia.
Qed.

Lemma Int_wrap_id (x : Z) : Int.in_range x → Int.wrap x = x.
Proof.
  unfold Int.in_range, Int.wrap, Int.MIN, Int.MAX. intros Hx.
  rewrite Z.mod_small; lia.
Qed.

Lemma Int_wrap_period (x q : Z) : Int.wrap (x + q * 2 ^ 32) = Int.wrap x.
Proof.
  unfold Int.wrap.
  replace (x + q * 2 ^ 32 + 2 ^ 31) with (x + 2 ^ 31 + q * 2 ^ 32) by lia.
  by rewrite Z.mod_add.
Qed.

Lemma Int_wrap_decompose (x : Z) : ∃ q, Int.wrap x = x + q * 2 ^ 32.
Proof.
  exists (- ((x + 2 ^ 31) / 2 ^ 32)). unfold Int.wrap.
  pose proof (Z.div_mod (x + 2 ^ 31) (2 ^ 32)). lia.
Qed.

Lemma Int_sub_add (a b : Z) : Int.in_range a → Int.sub (Int.add a b) b = a.
Proof.
  intros Ha. unfold Int.sub, Int.add.
  destruct (Int_wrap_decompose (a + b)) as [q ->].
  replace (a + b + q * 2 ^ 32 - b) with (a + q * 2 ^ 32) by lia.
  rewrite Int_wrap_period. by apply Int_wrap_id.
Qed.

Lemma Int_wrap_wrap_add (x y : Z) : Int.wrap (Int.wrap x + y) = Int.wrap (x + y).
Proof.
  destruct (Int_wrap_decompose x) as [q ->].
  replace (x + q * 2 ^ 32 + y) with (x + y + q * 2 ^ 32) by lia.
  apply Int_wrap_period.
Qed.

(** ** Division and rounding on binary64

  The quotient of two [int] values, converted to [double] and divided,
  is the double nearest to the exact quotient.  The lemmas below follow
  the steps of [SFdiv]: the integer division of the scaled mantissas, the
  location of the remainder, the shift to 53 digits and the rounding to
  nearest even. *)

Lemma digits2_pos_size p : digits2_pos p = Pos.size p.
Proof. induction p; simpl; congruence. Qed.

Lemma Zdigits2_bounds (d : Z) (m : Z) :
  0 < d → 2 ^ (d - 1) <= m < 2 ^ d → Zdigits2 m = d.
Proof.
  intros Hd [Hlo Hhi].
  assert (0 < 2 ^ (d - 1)) by (apply Z.pow_pos_nonneg; lia).
  destruct m as [|p|p]; try lia.
  simpl. rewrite digits2_pos_size.
  assert (Z.pos p < 2 ^ Z.pos (Pos.size p)) as Hgt.
  { change 2 with (Z.pos 2). rewrite <- Pos2Z.inj_pow. exact (Pos.size_gt p). }
  assert (2 ^ Z.pos (Pos.size p) <= 2 * Z.pos p) as Hle.
  { change 2 with (Z.pos 2) at 1. rewrite <- Pos2Z.inj_pow.
    exact (Pos.size_le p). }
  set (s := Z.pos (Pos.size p)) in *.
  assert (0 < s) by (unfold s; lia).
  destruct (Z.lt_trichotomy s d) as [Hlt|[Heq|Hgt']]; [|done|].
  - assert (2 ^ s <= 2 ^ (d - 1)) by (apply Z.pow_le_mono_r; lia). lia.
  - assert (2 ^ d <= 2 ^ (s - 1)) by (apply Z.pow_le_mono_r; lia).
    replace s with (s - 1 + 1) in Hle by lia.
    rewrite Z.pow_add_r in Hle by lia. lia.
Qed.

Lemma shr_fexp_53 m e l :
  2 ^ 52 <= m < 2 ^ 53 → -1074 <= e →
  shr_fexp 53 1024 m e l = (shr_record_of_loc m l, e).
Proof.
  intros Hm He. unfold shr_fexp. rewrite (Zdigits2_bounds 53) by (done || lia).
  unfold fexp, emin. replace (Z.max (53 + e - 53) (3 - 1024 - 53) - e) with 0 by lia.
  done.
Qed.

Lemma shr_fexp_54 m e l :
  2 ^ 53 <= m < 2 ^ 54 → -1075 <= e →
  shr_fexp 53 1024 m e l = (shr_1 (shr_record_of_loc m l), e + 1).
Proof.
  intros Hm He. unfold shr_fexp. rewrite (Zdigits2_bounds 54) by (done || lia).
  unfold fexp, emin. replace (Z.max (54 + e - 53) (3 - 1024 - 53) - e) with 1 by lia.
  done.
Qed.

Lemma new_location_located D q r :
  0 < D → 0 <= r < D → located (q * D + r) D q (new_location D r).
Proof.
  intros HD Hr. unfold new_location, new_location_even, new_location_odd.
  destruct (Z.even D) eqn:Heven; destruct (Z.eqb_spec r 0) as [->|Hr0];
    cbn [located]; try lia.
  - destruct (Z.compare_spec (2 * r) D); cbn [located]; lia.
  - assert (D ≠ 2 * r).
    { intros ->. rewrite Z.even_mul in Heven. done. }
    destruct (Z.compare_spec (2 * r + 1) D); cbn [located]; lia.
Qed.

Lemma loc_of_shr_record_of_loc m l :
  loc_of_shr_record (shr_record_of_loc m l) = l ∧ shr_m (shr_record_of_loc m l) = m.
Proof. by destruct l as [|[]]. Qed.

Lemma shr_1_located N D m l :
  0 < D → 0 <= m → located N D m l →
  let r := shr_1 (shr_record_of_loc m l) in
  located N (2 * D) (shr_m r) (loc_of_shr_record r) ∧ shr_m r = m / 2.
Proof.
  intros HD Hm Hloc. rewrite <- Z.div2_div.
  destruct m as [|[p|p|]|p]; [..|lia]; destruct l as [|[]];
    cbn [located shr_1 shr_record_of_loc loc_of_shr_record shr_m orb Z.div2] in *;
    (split; [|done]); lia.
Qed.

Lemma round_nearest_even_located N D m l :
  0 < D → located N D m l →
  m <= round_nearest_even m l <= m + 1
  ∧ 2 * Z.abs (round_nearest_even m l * D - N) <= D.
Proof.
  intros HD Hloc. destruct l as [|[]];
    cbn [located round_nearest_even] in *; try destruct (Z.even m); lia.
Qed.

Lemma round_finish sx M0 e :
  2 ^ 52 <= M0 <= 2 ^ 53 → -1074 <= e <= 970 →
  ∃ M E,
    (let '(mrs, e') := shr_fexp 53 1024 M0 e loc_Exact in
     match shr_m mrs with
     | Z0 => S754_zero sx
     | Zpos m => if e' <=? 1024 - 53 then S754_finite sx m e' else S754_infinity sx
     | Zneg _ => S754_nan
     end) = S754_finite sx M E
    ∧ Z.pos M * 2 ^ (E - e) = M0 ∧ 0 <= E - e <= 1
    ∧ 2 ^ 52 <= Z.pos M < 2 ^ 53.
Proof.
  intros HM He. destruct (Z.eq_dec M0 (2 ^ 53)) as [->|Hne].
  - rewrite shr_fexp_54 by lia.
    exists (2 ^ 52)%positive, (e + 1).
    replace (e + 1 - e) with 1 by lia.
    change (shr_m (shr_1 (shr_record_of_loc (2 ^ 53) loc_Exact))) with (Z.pos (2 ^ 52)).
    cbv beta iota. destruct (Z.leb_spec (e + 1) (1024 - 53)); [|lia].
    split; [done|]. split; [done|]. split; [lia|]. done.
  - rewrite shr_fexp_53 by lia. cbn [shr_record_of_loc shr_m].
    destruct M0 as [|p|p]; [lia| |lia].
    exists p, e. destruct (Z.leb_spec e (1024 - 53)); [|lia].
    replace (e - e) with 0 by lia. split; [done|]. split; [lia|]. lia.
Qed.

Lemma binary_round_aux_spec sx mx ex lx N D :
  0 < D → located N D mx lx → 2 ^ 52 <= mx < 2 ^ 54 → -1074 <= ex <= 960 →
  ∃ M E g,
    binary_round_aux 53 1024 sx mx ex lx = S754_finite sx M E
    ∧ 0 <= g <= 1 ∧ g <= E - ex <= 2
    ∧ 2 * Z.abs (Z.pos M * 2 ^ (E - ex) * D - N) <= 2 ^ g * D
    ∧ (Z.pos M * 2 ^ (E - ex)) mod 2 ^ g = 0.
Proof.
  intros HD Hloc Hmx Hex. unfold binary_round_aux.
  destruct (Z.lt_ge_cases mx (2 ^ 53)) as [Hlt|Hge].
  - rewrite shr_fexp_53 by lia.
    destruct (loc_of_shr_record_of_loc mx lx) as [-> ->].
    destruct (round_nearest_even_located N D mx lx HD Hloc) as [Hr Habs].
    destruct (round_finish sx (round_nearest_even mx lx) ex) as (M & E & -> & HV & HE & HM);
      [lia..|].
    exists M, E, 0. rewrite HV. split; [done|]. split; [lia|]. split; [lia|].
    split; [lia|]. by rewrite Z.mod_1_r.
  - rewrite shr_fexp_54 by lia.
    destruct (shr_1_located N D mx lx HD ltac:(lia) Hloc) as [Hloc1 Hm1].
    set (r := shr_1 (shr_record_of_loc mx lx)) in *.
    assert (2 ^ 52 <= shr_m r < 2 ^ 53) as Hm1r.
    { rewrite Hm1. split.
      - apply Z.div_le_lower_bound; lia.
      - apply Z.div_lt_upper_bound; lia. }
    destruct (round_nearest_even_located N (2 * D) _ _ ltac:(lia) Hloc1) as [Hr Habs].
    destruct (round_finish sx (round_nearest_even (shr_m r) (loc_of_shr_record r)) (ex + 1))
      as (M & E & -> & HV & HE & HM); [lia..|].
    exists M, E, 1. split; [done|]. split; [lia|]. split; [lia|].
    replace (E - ex) with (E - (ex + 1) + 1) by lia.
    rewrite Z.pow_add_r by lia. rewrite Z.mul_assoc, HV.
    change (2 ^ 1) with 2. split; [lia|].
    by rewrite Z.mod_mul.
Qed.

Lemma iter_xO_mul p d : Z.pos (Pos.iter xO p d) = Z.pos p * 2 ^ Z.pos d.
Proof.
  change (Pos.iter xO p d) with (shift_pos d p).
  rewrite shift_pos_correct. change (Zpower_pos 2 d) with (2 ^ Z.pos d). lia.
Qed.

Lemma binary_round_int s p :
  Z.pos p < 2 ^ 52 →
  ∃ m e,
    binary_round 53 1024 s p 0 = S754_finite s m e
    ∧ 2 ^ 52 <= Z.pos m < 2 ^ 53
    ∧ -52 <= e <= -1
    ∧ Z.pos m = Z.pos p * 2 ^ (- e)
    ∧ 2 ^ (e + 52) <= Z.pos p < 2 ^ (e + 53).
Proof.
  intros Hp. unfold binary_round.
  set (dg := Z.pos (digits2_pos p)).
  assert (Zdigits2 (Z.pos p) = dg) as Hdg by done.
  assert (1 <= dg <= 52 ∧ 2 ^ (dg - 1) <= Z.pos p < 2 ^ dg) as [Hrange Hsize].
  { unfold dg. rewrite digits2_pos_size.
    assert (Z.pos p < 2 ^ Z.pos (Pos.size p)) as Hgt.
    { change 2 with (Z.pos 2). rewrite <- Pos2Z.inj_pow. exact (Pos.size_gt p). }
    assert (2 ^ Z.pos (Pos.size p) <= 2 * Z.pos p) as Hle.
    { change 2 with (Z.pos 2) at 1. rewrite <- Pos2Z.inj_pow.
      exact (Pos.size_le p). }
    set (sz := Z.pos (Pos.size p)) in *.
    assert (0 < sz) by (unfold sz; lia).
    replace sz with (sz - 1 + 1) in Hle at 1 by lia.
    rewrite Z.pow_add_r in Hle by lia.
    split; [|lia]. split; [lia|].
    destruct (Z.le_gt_cases sz 52) as [|Hbig]; [done|].
    assert (2 ^ 52 <= 2 ^ (sz - 1)) by (apply Z.pow_le_mono_r; lia). lia. }
  unfold shl_align, fexp, emin.
  replace (Z.max (dg + 0 - 53) (3 - 1024 - 53) - 0) with (dg - 53) by lia.
  destruct (dg - 53) as [|q|q] eqn:Hq; [lia|lia|].
  assert (Z.pos q = 53 - dg) as Hq' by lia.
  pose proof (iter_xO_mul p q) as Hmz. rewrite Hq' in Hmz.
  set (mz := Pos.iter xO p q) in *.
  assert (2 ^ 52 <= Z.pos mz < 2 ^ 53) as Hmzr.
  { rewrite Hmz. replace 52 with ((dg - 1) + (53 - dg)) at 1 by lia.
    replace 53 with (dg + (53 - dg)) at 4 by lia.
    rewrite !Z.pow_add_r by lia.
    assert (0 < 2 ^ (53 - dg)) by (apply Z.pow_pos_nonneg; lia). nia. }
  replace (Z.max (dg + 0 - 53) (3 - 1024 - 53)) with (dg - 53) by lia.
  rewrite Hq.
  unfold binary_round_aux. rewrite shr_fexp_53 by lia.
  cbn [shr_record_of_loc shr_m loc_of_shr_record round_nearest_even].
  rewrite shr_fexp_53 by lia. cbn [shr_record_of_loc shr_m].
  destruct (Z.leb_spec (Z.neg q) (1024 - 53)); [|lia].
  exists mz, (Z.neg q). split; [done|]. split; [done|]. split; [lia|].
  replace (- Z.neg q) with (53 - dg) by lia. split; [done|].
  replace (Z.neg q + 52) with (dg - 1) by lia.
  by replace (Z.neg q + 53) with dg by lia.
Qed.

Lemma SFdiv_finite_spec s1 m1 e1 s2 m2 e2 :
  2 ^ 52 <= Z.pos m1 < 2 ^ 53 → 2 ^ 52 <= Z.pos m2 < 2 ^ 53 →
  -52 <= e1 <= -1 → -52 <= e2 <= -1 →
  ∃ M E g,
    SFdiv 53 1024 (S754_finite s1 m1 e1) (S754_finite s2 m2 e2)
      = S754_finite (xorb s1 s2) M E
    ∧ 0 <= g <= 1 ∧ g <= E - (e1 - e2 - 53) <= 2
    ∧ 2 * Z.abs (Z.pos M * 2 ^ (E - (e1 - e2 - 53)) * Z.pos m2 - Z.pos m1 * 2 ^ 53)
      <= 2 ^ g * Z.pos m2
    ∧ (Z.pos M * 2 ^ (E - (e1 - e2 - 53))) mod 2 ^ g = 0.
Proof.
  intros Hm1 Hm2 He1 He2. unfold SFdiv, SFdiv_core_binary.
  rewrite !(Zdigits2_bounds 53) by (done || lia).
  unfold fexp, emin.
  replace (Z.min (Z.max (53 + e1 - (53 + e2) - 53) (3 - 1024 - 53)) (e1 - e2))
    with (e1 - e2 - 53) by lia.
  replace (e1 - e2 - (e1 - e2 - 53)) with 53 by lia.
  rewrite Z.shiftl_mul_pow2 by lia.
  pose proof (Z_div_mod (Z.pos m1 * 2 ^ 53) (Z.pos m2) ltac:(lia)) as Hdiv.
  destruct (Z.div_eucl (Z.pos m1 * 2 ^ 53) (Z.pos m2)) as [q r].
  destruct Hdiv as [Hqr Hr].
  apply (binary_round_aux_spec _ q _ _ (Z.pos m1 * 2 ^ 53) (Z.pos m2)); [lia| | |lia].
  - rewrite Hqr, (Z.mul_comm (Z.pos m2) q). apply new_location_located; lia.
  - split; nia.
Qed.

Lemma round_quotient M d :
  0 <= M → 0 < d →
  (let q := M / d in let r := M mod d in if d <=? 2 * r then q + 1 else q)
  = (2 * M + d) / (2 * d).
Proof.
  intros HM Hd. cbv zeta.
  pose proof (Z.div_mod M d ltac:(lia)) as Hdm.
  pose proof (Z.mod_pos_bound M d Hd) as Hr.
  destruct (Z.leb_spec d (2 * (M mod d))).
  - apply Z.div_unique with (2 * (M mod d) - d); lia.
  - apply Z.div_unique with (2 * (M mod d) + d); lia.
Qed.

Lemma to_int_round_finite s M E :
  E < 0 →
  let Q' := (2 * Z.pos M + 2 ^ (- E)) / (2 * 2 ^ (- E)) in
  Q' < 2 ^ 52 → Int.MIN <= cond_Zopp s Q' <= Int.MAX →
  Double.to_int (Double.round (S754_finite s M E)) = cond_Zopp s Q'.
Proof.
  intros HE Q' Hsmall Hrange. unfold Double.round.
  destruct (Z.leb_spec 0 E); [lia|].
  rewrite round_quotient by (lia || (apply Z.pow_pos_nonneg; lia)).
  fold Q'.
  assert (0 <= Q') as Hnn.
  { unfold Q'. apply Z.div_pos; [|assert (0 < 2 ^ (- E)) by (apply Z.pow_pos_nonneg; lia); lia].
    assert (0 < 2 ^ (- E)) by (apply Z.pow_pos_nonneg; lia). lia. }
  destruct Q' as [|p|p] eqn:HQ; [by destruct s| |lia].
  assert (∃ m e, Double.round (S754_finite s M E) = Double.round (S754_finite s M E)
                 ∧ binary_normalize Double.prec Double.emax (cond_Zopp s (Z.pos p)) 0 s
                   = S754_finite s m e
                 ∧ -52 <= e <= -1 ∧ Z.pos m = Z.pos p * 2 ^ (- e)) as (m & e & _ & -> & He & Hm).
  { destruct (binary_round_int s p Hsmall) as (m & e & Hbr & _ & He & Hm & _).
    exists m, e. split; [done|]. split; [|done].
    destruct s; exact Hbr. }
  unfold Double.to_int. destruct (Z.leb_spec 0 e); [lia|].
  rewrite Hm, Z.div_mul by (apply Z.pow_nonzero; lia).
  destruct (Z.leb_spec Int.MIN (cond_Zopp s (Z.pos p)));
    destruct (Z.leb_spec (cond_Zopp s (Z.pos p)) Int.MAX); simpl; lia.
Qed.

Lemma quotient_rounding_agree (a n V Dx g : Z) :
  0 < n → 0 <= a → 0 <= g <= 1 →
  2 ^ g * n < Dx → Dx mod 2 ^ (g + 1) = 0 → V mod 2 ^ g = 0 →
  2 * Z.abs (V * n - a * Dx) <= 2 ^ g * n →
  (2 * V + Dx) / (2 * Dx) = (2 * a + n) / (2 * n).
Proof.
  intros Hn Ha Hg HDx Hdiv HV Herr.
  set (J := (2 * a + n) / (2 * n)).
  pose proof (Z.div_mod (2 * a + n) (2 * n) ltac:(lia)) as Hdm. fold J in Hdm.
  pose proof (Z.mod_pos_bound (2 * a + n) (2 * n) ltac:(lia)) as Hr.
  set (r0 := (2 * a + n) mod (2 * n)) in *.
  assert (0 < Dx) as HDpos.
  { assert (0 < 2 ^ g) by (apply Z.pow_pos_nonneg; lia). nia. }
  symmetry. apply Z.div_unique with (2 * V + Dx - 2 * Dx * J); [left|lia].
  apply Z.mod_divide in Hdiv; [|apply Z.pow_nonzero; lia].
  apply Z.mod_divide in HV; [|apply Z.pow_nonzero; lia].
  destruct Hdiv as [x Hx], HV as [v Hv].
  assert (g = 0 ∨ g = 1) as [-> | ->] by lia.
  - change (2 ^ (0 + 1)) with 2 in Hx. change (2 ^ 0) with 1 in *.
    split.
    + assert (0 <= (2 * V - (2 * J - 1) * Dx)); [|lia].
      destruct (Z.eq_dec r0 0) as [Hr0|Hr0].
      * assert ((2 * J - 1) * x * n - n <= v * n) by nia.
        assert ((2 * J - 1) * x - 1 <= v) by nia. nia.
      * assert ((2 * J - 1) * n * Dx + Dx <= 2 * a * Dx) by nia.
        assert ((2 * J - 1) * Dx * n < 2 * V * n) by nia.
        nia.
    + assert (2 * a * Dx <= (2 * J + 1) * n * Dx - Dx) by nia.
      assert (2 * V * n < (2 * J + 1) * Dx * n) by nia.
      nia.
  - change (2 ^ (1 + 1)) with 4 in Hx. change (2 ^ 1) with 2 in *.
    split.
    + assert (0 <= (2 * V - (2 * J - 1) * Dx)); [|lia].
      destruct (Z.eq_dec r0 0) as [Hr0|Hr0].
      * assert (2 * ((2 * J - 1) * x) * n - n <= 2 * v * n) by nia.
        assert (2 * ((2 * J - 1) * x) - 1 <= 2 * v) by nia. nia.
      * assert ((2 * J - 1) * n * Dx + Dx <= 2 * a * Dx) by nia.
        assert ((2 * J - 1) * Dx * n < 2 * V * n) by nia.
        nia.
    + assert (2 * a * Dx <= (2 * J + 1) * n * Dx - Dx) by nia.
      assert (2 * V * n < (2 * J + 1) * Dx * n) by nia.
      nia.
Qed.

Lemma scaled_bound (G n A P : Z) :
  0 < G <= 2 → 0 < n < P → 2097152 <= A → G * n < A * P.
Proof. intros. nia. Qed.

Lemma cancel_scale (X T c : Z) : 0 < T → 2 * (X * T) <= c * T → 2 * X <= c.
Proof. intros HT H. apply (Z.mul_le_mono_pos_r _ _ T HT). lia. Qed.

Lemma div_round_to_int_pos s a n :
  Z.pos a <= 2 ^ 31 → Z.pos n < 2 ^ 52 →
  Int.MIN <= cond_Zopp s (Z.pos a) <= Int.MAX →
  Double.to_int (Double.round
    (Double.div (binary_round 53 1024 s a 0) (binary_round 53 1024 false n 0)))
  = cond_Zopp s ((2 * Z.pos a + Z.pos n) / (2 * Z.pos n)).
Proof.
  intros Ha Hn Hrange.
  destruct (binary_round_int s a ltac:(lia)) as (m1 & e1 & -> & Hm1 & He1 & Hm1a & Ha1).
  destruct (binary_round_int false n Hn) as (m2 & e2 & -> & Hm2 & He2 & Hm2n & Hn2).
  destruct (SFdiv_finite_spec s m1 e1 false m2 e2 Hm1 Hm2 He1 He2)
    as (M & E & g & HM & Hg & HE & Herr & Hdiv).
  unfold Double.div, Double.prec, Double.emax. rewrite HM.
  rewrite xorb_false_r.
  assert (e1 <= -21) as He1'.
  { destruct (Z.le_gt_cases e1 (-21)) as [|Hgt]; [done|].
    assert (2 ^ 32 <= 2 ^ (e1 + 52)) by (apply Z.pow_le_mono_r; lia).
    change (2 ^ 32) with 4294967296 in *. change (2 ^ 31) with 2147483648 in *. lia. }
  set (ex := e1 - e2 - 53) in *.
  set (k := E - ex) in *.
  set (V := Z.pos M * 2 ^ k) in *.
  set (Dx := 2 ^ (- ex)).
  set (T := 2 ^ (- e2)) in *.
  assert (0 < T) as HT by (apply Z.pow_pos_nonneg; lia).
  assert (0 < 2 ^ k) as Hk by (apply Z.pow_pos_nonneg; lia).
  assert (0 < 2 ^ (- E)) as HdE by (apply Z.pow_pos_nonneg; lia).
  assert (Dx = 2 ^ (- E) * 2 ^ k) as HDx.
  { unfold Dx. rewrite <- Z.pow_add_r by lia. f_equal; lia. }
  assert (2 ^ (- e1) * 2 ^ 53 = Dx * T) as HAT.
  { unfold Dx, T. rewrite <- !Z.pow_add_r by lia. f_equal; lia. }
  assert ((2 * Z.pos M + 2 ^ (- E)) / (2 * 2 ^ (- E)) = (2 * V + Dx) / (2 * Dx)) as HQ.
  { rewrite HDx. unfold V.
    replace (2 * (Z.pos M * 2 ^ k) + 2 ^ (- E) * 2 ^ k)
      with ((2 * Z.pos M + 2 ^ (- E)) * 2 ^ k) by lia.
    replace (2 * (2 ^ (- E) * 2 ^ k)) with (2 * 2 ^ (- E) * 2 ^ k) by lia.
    rewrite Z.div_mul_cancel_r by lia. done. }
  assert ((2 * V + Dx) / (2 * Dx) = (2 * Z.pos a + Z.pos n) / (2 * Z.pos n)) as HJ.
  { apply quotient_rounding_agree with g; [lia|lia|lia| | |done|].
    - assert (Dx = 2 ^ (- e1) * 2 ^ (e2 + 53)) as ->.
      { unfold Dx. rewrite <- Z.pow_add_r by lia. f_equal; lia. }
      assert (2 ^ 21 <= 2 ^ (- e1)) by (apply Z.pow_le_mono_r; lia).
      assert (2 ^ g <= 2 ^ 1) by (apply Z.pow_le_mono_r; lia).
      change (2 ^ 21) with 2097152 in *. change (2 ^ 1) with 2 in *.
      assert (0 < 2 ^ g) by (apply Z.pow_pos_nonneg; lia).
      apply scaled_bound; lia.
    - apply Z.mod_divide; [apply Z.pow_nonzero; lia|].
      exists (2 ^ (- ex - (g + 1))). unfold Dx.
      rewrite <- Z.pow_add_r by lia. f_equal; lia.
    - rewrite Hm1a, Hm2n in Herr. fold T in Herr.
      replace (Z.pos a * 2 ^ (- e1) * 2 ^ 53) with (Z.pos a * Dx * T) in Herr by lia.
      replace (V * (Z.pos n * T) - Z.pos a * Dx * T)
        with ((V * Z.pos n - Z.pos a * Dx) * T) in Herr by lia.
      rewrite Z.abs_mul, (Z.abs_eq T) in Herr by lia.
      apply (cancel_scale _ T); [done|]. lia. }
  assert ((2 * Z.pos a + Z.pos n) / (2 * Z.pos n) <= Z.pos a) as HJa.
  { apply Z.lt_succ_r, Z.div_lt_upper_bound; [lia|].
    apply (Z.lt_le_trans _ (2 * Z.pos n * Z.pos a + 2 * Z.pos n)); [|lia].
    assert (1 * Z.pos a <= Z.pos n * Z.pos a) by (apply Z.mul_le_mono_nonneg_r; lia).
    lia. }
  assert (0 <= (2 * Z.pos a + Z.pos n) / (2 * Z.pos n)) as HJ0.
  { apply Z.div_pos; lia. }
  rewrite to_int_round_finite; rewrite ?HQ, ?HJ; try done.
  - lia.
  - change (2 ^ 31) with 2147483648 in *. change (2 ^ 52) with 4503599627370496. lia.
  - unfold Int.MIN, Int.MAX in *. change (2 ^ 31) with 2147483648 in *.
    destruct s; cbn [cond_Zopp] in *; lia.
Qed.

Lemma div_round_to_int (t n : Z) :
  Int.in_range t → 0 < n <= Int.MAX →
  Double.to_int (Double.round (Double.div (Double.of_int t) (Double.of_int n)))
  = round_half_away t n.
Proof.
  unfold Int.in_range, Int.MIN, Int.MAX.
  change (2 ^ 31) with 2147483648.
  intros Ht Hn. destruct n as [|n|n]; [lia| |lia].
  unfold round_half_away.
  destruct t as [|a|a].
  - unfold Double.of_int, binary_normalize.
    destruct (binary_round_int false n) as (m2 & e2 & H2 & _).
    { change (2 ^ 52) with 4503599627370496. lia. }
    unfold Double.prec, Double.emax, Double.div. rewrite H2. done.
  - change (Double.of_int (Z.pos a)) with (binary_round 53 1024 false a 0).
    change (Double.of_int (Z.pos n)) with (binary_round 53 1024 false n 0).
    rewrite div_round_to_int_pos.
    + change (Z.sgn (Z.pos a)) with 1. change (Z.abs (Z.pos a)) with (Z.pos a).
      cbn [cond_Zopp]. lia.
    + change (2 ^ 31) with 2147483648. lia.
    + change (2 ^ 52) with 4503599627370496. lia.
    + unfold Int.MIN, Int.MAX. change (2 ^ 31) with 2147483648. simpl. lia.
  - change (Double.of_int (Z.neg a)) with (binary_round 53 1024 true a 0).
    change (Double.of_int (Z.pos n)) with (binary_round 53 1024 false n 0).
    rewrite div_round_to_int_pos.
    + change (Z.sgn (Z.neg a)) with (-1). change (Z.abs (Z.neg a)) with (Z.pos a).
      cbn [cond_Zopp]. lia.
    + change (2 ^ 31) with 2147483648. lia.
    + change (2 ^ 52) with 4503599627370496. lia.
    + unfold Int.MIN, Int.MAX. change (2 ^ 31) with 2147483648. simpl. lia.
Qed.

(** ** Exact rounding *)

(** [round_half_away t n] is within one half of [t / n]; where it is
    exactly one half away, it is the one of the two neighbours that is
    further from zero. *)
Lemma round_half_away_nearest (t n : Z) :
  0 < n →
  2 * Z.abs (round_half_away t n * n - t) <= n
  ∧ (2 * Z.abs (round_half_away t n * n - t) = n →
     Z.abs t < Z.abs (round_half_away t n * n)).
Proof.
  intros Hn. unfold round_half_away.
  pose proof (Z.div_mod (2 * Z.abs t + n) (2 * n) ltac:(lia)) as Hdm.
  pose proof (Z.mod_pos_bound (2 * Z.abs t + n) (2 * n) ltac:(lia)) as Hr.
  set (J := (2 * Z.abs t + n) / (2 * n)) in *.
  set (r := (2 * Z.abs t + n) mod (2 * n)) in *.
  assert (0 <= J) as HJ by (apply Z.div_pos; lia).
  assert (2 * n * J = 2 * (J * n)) as HJn by lia.
  set (P := J * n) in *.
  assert (0 <= P) as HP by (apply Z.mul_nonneg_nonneg; lia).
  destruct t as [|a|a].
  - change (Z.sgn 0) with 0. lia.
  - change (Z.sgn (Z.pos a)) with 1. rewrite Z.mul_1_l. fold P. lia.
  - change (Z.sgn (Z.neg a)) with (-1).
    replace (-1 * J * n) with (- P) by (unfold P; lia). lia.
Qed.

(** ** The percentage on kitchens of fewer than 160 dishes *)

Lemma percentages_exact_below_160 : percentages_exact_up_to 159 = true.
Proof. by vm_compute. Qed.

Lemma percentage_exact_below_160 (count size : Z) :
  0 < size < 160 → 0 <= count <= size → percentage_exact count size = true.
Proof.
  intros Hsize Hcount.
  pose proof percentages_exact_below_160 as Hall.
  unfold percentages_exact_up_to in Hall.
  assert (In (Z.to_nat size - 1)%nat (seq 0 159)) as Hn by (apply in_seq; lia).
  apply (proj1 (forallb_forall _ _) Hall) in Hn.
  assert (In (Z.to_nat count) (seq 0 (S (S (Z.to_nat size - 1))))) as Hc
    by (apply in_seq; lia).
  apply (proj1 (forallb_forall _ _) Hn) in Hc.
  replace (S (Z.to_nat size - 1)) with (Z.to_nat size) in Hc by lia.
  by rewrite !Z2Nat.id in Hc by lia.
Qed.

Section properties.

Context {Price : Type} `{!EqDecision Price}.
Variable DEFAULT_CAPACITY : nat.

Implicit Types (d x y : Dish (Price := Price)).
Implicit Types (b l : list (Dish (Price := Price))).
Implicit Types (k : Kitchen (Price := Price)).
Implicit Types (o : Op (Price := Price)) (ops : list (Op (Price := Price))).

(** ** The bag *)

Lemma getIndexOf_Some b x i :
  getIndexOf b x = Some i ↔ b !! i = Some x ∧ ∀ j y, b !! j = Some y → (j < i)%nat → y ≠ x.
Proof.
  unfold getIndexOf. split.
  - intros H. destruct (list_find _ b) as [[i' x']|] eqn:E; simplify_eq/=.
    apply list_find_Some in E as (? & -> & ?). done.
  - intros [H1 H2].
    assert (list_find (λ y, y = x) b = Some (i, x)) as ->; [|done].
    apply list_find_Some. done.
Qed.

Lemma getIndexOf_None b x : getIndexOf b x = None ↔ x ∉ b.
Proof.
  unfold getIndexOf. rewrite fmap_None, list_find_None, Forall_forall.
  split; [intros H Hx; by apply (H x) | intros H y Hy ->; done].
Qed.

Lemma contains_true b x : contains b x = true ↔ x ∈ b.
Proof.
  unfold contains. rewrite bool_decide_eq_true.
  destruct (getIndexOf b x) as [i|] eqn:E.
  - apply getIndexOf_Some in E as [E _].
    split; [intros _; by eapply list_elem_of_lookup_2 | eauto].
  - apply getIndexOf_None in E. split; [by intros [? ?] | done].
Qed.

Lemma contains_false b x : contains b x = false ↔ x ∉ b.
Proof. rewrite <- contains_true. by destruct (contains b x). Qed.

Lemma getIndexOf_split l1 x l2 :
  x ∉ l1 → getIndexOf (l1 ++ x :: l2) x = Some (length l1).
Proof.
  intros Hx. apply getIndexOf_Some. split.
  - by rewrite list_lookup_middle.
  - intros j y Hj Hlt ->. apply Hx.
    rewrite lookup_app_l in Hj by done. by eapply list_elem_of_lookup_2.
Qed.

Lemma getIndexOf_inv b x i :
  getIndexOf b x = Some i →
  ∃ l1 l2, b = l1 ++ x :: l2 ∧ length l1 = i ∧ x ∉ l1.
Proof.
  intros [Hi Hmin]%getIndexOf_Some.
  exists (take i b), (drop (S i) b). split_and!.
  - by rewrite take_drop_middle.
  - apply length_take_le. apply lookup_lt_Some in Hi. lia.
  - intros [j Hj]%list_elem_of_lookup_1.
    apply lookup_take_Some in Hj as [Hj ?]. by eapply Hmin.
Qed.

(** [remove] on a bag whose first item equal to [x] is the last slot. *)
Lemma remove_last l1 x : x ∉ l1 → remove (l1 ++ [x]) x = (true, l1).
Proof.
  intros Hx. unfold remove. rewrite getIndexOf_split by done.
  rewrite last_snoc, length_app. simpl.
  rewrite list_insert_id by (by rewrite list_lookup_middle).
  replace (length l1 + 1 - 1)%nat with (length l1) by lia.
  by rewrite take_app_length.
Qed.

(** [remove] on a bag with live slots after the first item equal to [x]:
    the last item takes the freed slot. *)
Lemma remove_mid l1 x l2 y :
  x ∉ l1 → remove (l1 ++ x :: l2 ++ [y]) x = (true, l1 ++ y :: l2).
Proof.
  intros Hx. unfold remove. rewrite getIndexOf_split by done.
  replace (l1 ++ x :: l2 ++ [y]) with ((l1 ++ x :: l2) ++ [y])
    by (by rewrite <- (assoc_L (++))).
  rewrite last_snoc, insert_app_l by (rewrite length_app; simpl; lia).
  rewrite insert_app_r_alt by lia.
  replace (length l1 - length l1)%nat with 0%nat by lia. simpl.
  f_equal. apply take_app_length'.
  rewrite !length_app. simpl. lia.
Qed.

(** A successful [remove] takes exactly one copy of the item out. *)
Lemma remove_true b x b' : remove b x = (true, b') → b ≡ₚ x :: b'.
Proof.
  intros H. destruct (getIndexOf b x) as [i|] eqn:E.
  - apply getIndexOf_inv in E as (l1 & l2 & -> & <- & Hx).
    destruct l2 as [|z l2 _] using rev_ind.
    + rewrite remove_last in H by done. simplify_eq.
      by rewrite Permutation_app_comm.
    + rewrite remove_mid in H by done. simplify_eq.
      rewrite <- !Permutation_middle. by rewrite app_nil_r.
  - unfold remove in H. by rewrite E in H.
Qed.

Lemma remove_false b x b' : remove b x = (false, b') → b' = b ∧ x ∉ b.
Proof.
  intros H. destruct (getIndexOf b x) as [i|] eqn:E.
  - apply getIndexOf_inv in E as (l1 & l2 & -> & <- & Hx).
    destruct l2 as [|z l2 _] using rev_ind.
    + by rewrite remove_last in H.
    + by rewrite remove_mid in H.
  - unfold remove in H. rewrite E in H. apply getIndexOf_None in E.
    by simplify_eq.
Qed.

Lemma remove_elem_of b x : x ∈ b → ∃ b', remove b x = (true, b').
Proof.
  intros Hx. destruct (remove b x) as [[] b'] eqn:E; [eauto|].
  by apply remove_false in E as [_ ?].
Qed.

(** ** The backward loop of the release functions *)

(** Whatever the bag, each removal of the loop takes one item out: the
    bag after the loop is a sub-multiset of the bag before it, and the
    count has gone up by the number of items that left. *)
Lemma release_loop_submseteq (P : Dish → bool) n b c :
  ∃ b', release_loop P n b c
          = (c + (Z.of_nat (length b) - Z.of_nat (length b')), b')
        ∧ b' ⊆+ b.
Proof.
  revert b c. induction n as [|i IH]; intros b c; simpl.
  - exists b. split; [f_equal; lia | done].
  - destruct (b !! i) as [x|]; [destruct (P x)|]; try apply IH.
    destruct (remove b x) as [[] b1] eqn:R.
    + apply remove_true in R.
      destruct (IH b1 (c + 1)) as (b' & -> & Hsub). exists b'. split.
      * f_equal. rewrite R. simpl. lia.
      * rewrite R. by apply submseteq_cons.
    + apply remove_false in R as [-> _]. apply IH.
Qed.

(** [remove(items_[i])] on a bag without duplicates: slot [i] itself is
    the one refilled, the slots below [i] are untouched, and the slots
    from [i] on hold items that were above [i] before the call. *)
Lemma remove_slot b i x :
  NoDup b → b !! i = Some x →
  ∃ b', remove b x = (true, b')
        ∧ b ≡ₚ x :: b'
        ∧ take i b' = take i b
        ∧ (i ≤ length b')%nat
        ∧ (∀ y, y ∈ drop i b' → y ∈ drop (S i) b).
Proof.
  intros Hnd Hx.
  pose proof (take_drop_middle _ _ _ Hx) as Hb.
  assert (length (take i b) = i) as Hlen.
  { apply length_take_le. apply lookup_lt_Some in Hx. lia. }
  rewrite <- Hb in Hnd. apply NoDup_app in Hnd as (_ & Hnotin & _).
  assert (x ∉ take i b) as Hx1 by (intros ?; eapply Hnotin; [done|left]).
  revert Hb Hlen Hx1. generalize (take i b) as l1, (drop (S i) b) as l2.
  intros l1 l2 <- <- Hx1. clear Hnotin Hx.
  destruct l2 as [|z l2 _] using rev_ind.
  - exists l1. rewrite remove_last by done. split_and!; [done| |..].
    + by rewrite Permutation_app_comm.
    + by apply take_ge.
    + done.
    + rewrite drop_all. by intros y ?%elem_of_nil.
  - exists (l1 ++ z :: l2). rewrite remove_mid by done. split_and!; [done| |..].
    + rewrite <- !Permutation_middle. by rewrite app_nil_r.
    + by rewrite take_app_length.
    + rewrite length_app. lia.
    + rewrite drop_app_length.
      intros y. rewrite elem_of_cons, elem_of_app, list_elem_of_singleton. tauto.
Qed.

(** On a bag without duplicates the loop visits every qualifying item
    once: entering with the items of the slots [n] and above not
    qualifying, it removes the qualifying items of the slots below [n],
    counts them, and keeps all the others. *)
Lemma release_loop_exact (P : Dish → bool) n b c :
  NoDup b → (n ≤ length b)%nat → Forall (λ x, ¬ P x) (drop n b) →
  ∃ b', release_loop P n b c
          = (c + Z.of_nat (length (filter (λ x, P x) (take n b))), b')
        ∧ b' ≡ₚ filter (λ x, ¬ P x) b.
Proof.
  revert b c. induction n as [|i IH]; intros b c Hnd Hn Hrest; cbn [release_loop].
  - exists b. split; [f_equal; simpl; lia|].
    rewrite drop_0 in Hrest. clear -Hrest.
    induction Hrest; [done|]. rewrite filter_cons_True by done. by f_equiv.
  - destruct (lookup_lt_is_Some_2 b i) as [x Hx]; [lia|]. rewrite Hx.
    rewrite (take_S_r _ _ _ Hx), filter_app, length_app.
    destruct (P x) eqn:HP.
    + destruct (remove_slot b i x Hnd Hx) as (b1 & -> & Hperm & Htake & Hi & Hdrop).
      destruct (IH b1 (c + 1)) as (b' & -> & Hb').
      * rewrite Hperm in Hnd. by apply NoDup_cons in Hnd as [_ ?].
      * done.
      * apply Forall_forall. intros y Hy%Hdrop.
        by eapply Forall_forall in Hrest.
      * exists b'. split.
        -- f_equal. rewrite Htake, filter_cons_True by (by rewrite HP).
           simpl. lia.
        -- rewrite Hb', Hperm, filter_cons_False; [done|].
           rewrite HP. by intros [].
    + destruct (IH b c) as (b' & -> & Hb'); [done|lia| |].
      * rewrite (drop_S _ _ _ Hx). constructor; [by rewrite HP; intros []|done].
      * exists b'. split; [|done].
        f_equal. rewrite filter_cons_False by (by rewrite HP; intros []). simpl. lia.
Qed.

(** ** [newOrder] and [serveDish] *)

Lemma newOrder_stored k d : d ∈ items_ k → newOrder DEFAULT_CAPACITY k d = (false, k).
Proof. intros Hd%contains_true. unfold newOrder. by rewrite Hd. Qed.

Lemma newOrder_full k d :
  d ∉ items_ k → ¬ (length (items_ k) < DEFAULT_CAPACITY)%nat →
  newOrder DEFAULT_CAPACITY k d = (false, k).
Proof.
  intros Hd%contains_false Hcap. unfold newOrder, add. rewrite Hd.
  rewrite decide_False by done. by destruct k.
Qed.

Lemma newOrder_added k d :
  d ∉ items_ k → (length (items_ k) < DEFAULT_CAPACITY)%nat →
  newOrder DEFAULT_CAPACITY k d =
    (true,
     {| items_ := items_ k ++ [d];
        totalprep_time_ := Int.add (totalprep_time_ k) (getPrepTime d);
        countelaborate :=
          if elaborate d then Int.add (countelaborate k) 1 else countelaborate k |}).
Proof.
  intros Hd%contains_false Hcap. unfold newOrder, add. rewrite Hd.
  by rewrite decide_True by done.
Qed.

(** The three outcomes of [newOrder]. *)
Lemma newOrder_cases k d :
  (newOrder DEFAULT_CAPACITY k d = (false, k)
   ∧ (d ∈ items_ k ∨ ¬ (length (items_ k) < DEFAULT_CAPACITY)%nat))
  ∨ ((d ∉ items_ k) ∧ (length (items_ k) < DEFAULT_CAPACITY)%nat
     ∧ newOrder DEFAULT_CAPACITY k d =
         (true,
          {| items_ := items_ k ++ [d];
             totalprep_time_ := Int.add (totalprep_time_ k) (getPrepTime d);
             countelaborate :=
               if elaborate d then Int.add (countelaborate k) 1
               else countelaborate k |})).
Proof.
  destruct (decide (d ∈ items_ k)) as [Hd|Hd].
  { left. split; [by apply newOrder_stored | by left]. }
  destruct (decide (length (items_ k) < DEFAULT_CAPACITY)%nat) as [Hc|Hc].
  - right. split_and!; [done..|]. by apply newOrder_added.
  - left. split; [by apply newOrder_full | by right].
Qed.

Lemma serveDish_absent k d : d ∉ items_ k → serveDish k d = (false, k).
Proof. intros Hd%contains_false. unfold serveDish. by rewrite Hd. Qed.

Lemma serveDish_stored k d :
  d ∈ items_ k →
  ∃ b', remove (items_ k) d = (true, b')
        ∧ items_ k ≡ₚ d :: b'
        ∧ serveDish k d =
            (true,
             {| items_ := b';
                totalprep_time_ := Int.sub (totalprep_time_ k) (getPrepTime d);
                countelaborate :=
                  if elaborate d then Int.sub (countelaborate k) 1
                  else countelaborate k |}).
Proof.
  intros Hd. destruct (remove_elem_of _ _ Hd) as [b' R]. exists b'.
  split_and!; [done | by apply remove_true |].
  apply contains_true in Hd. unfold serveDish. by rewrite Hd, R.
Qed.

(** C4: when [newOrder(d)] succeeds, in particular when [d] was not stored,
    a following [serveDish(d)] succeeds and gives back the kitchen as it
    was before the add: the same live slots, and the same values of
    [totalprep_time_] and [countelaborate], whether or not the addition
    wrapped around. *)
Theorem newOrder_serveDish_roundtrip k d k1 :
  Int.in_range (totalprep_time_ k) → Int.in_range (countelaborate k) →
  newOrder DEFAULT_CAPACITY k d = (true, k1) →
  (d ∉ items_ k) ∧ serveDish k1 d = (true, k).
Proof.
  intros Ht Hc Hadd.
  destruct (newOrder_cases k d) as [[E _]|(Hd & Hcap & E)]; [congruence|].
  split; [done|]. rewrite E in Hadd. simplify_eq.
  unfold serveDish. cbn [items_ totalprep_time_ countelaborate].
  assert (contains (items_ k ++ [d]) d = true) as ->.
  { apply contains_true, elem_of_app. right. by left. }
  rewrite remove_last by done. simpl.
  rewrite Int_sub_add by done.
  destruct (elaborate d); [rewrite Int_sub_add by done|]; by destruct k.
Qed.

(** C5: [newOrder(d)] on a kitchen that stores a dish equal to [d] returns
    false and gives back the kitchen unchanged; and whatever the first
    call did, a second [newOrder(d)] in a row returns false and changes
    nothing. *)
Theorem newOrder_duplicate_rejected k d :
  (d ∈ items_ k → newOrder DEFAULT_CAPACITY k d = (false, k))
  ∧ (let k1 := (newOrder DEFAULT_CAPACITY k d).2 in
     newOrder DEFAULT_CAPACITY k1 d = (false, k1)).
Proof.
  split; [apply newOrder_stored|].
  destruct (newOrder_cases k d) as [[E [Hd|Hcap]]|(Hd & Hcap & E)];
    rewrite E; cbn [snd].
  - by apply newOrder_stored.
  - destruct (decide (d ∈ items_ k)); [by apply newOrder_stored|].
    by apply newOrder_full.
  - apply newOrder_stored. cbn [items_]. apply elem_of_app. right. by left.
Qed.

(** ** Cuisine labels and the tally *)

Local Ltac label_listed := rewrite !elem_of_cons; naive_solver.

Lemma getCuisineType_recognized d : getCuisineType d ∈ cuisine_labels.
Proof.
  unfold getCuisineType, cuisine_labels.
  destruct (cuisine_type_ d); label_listed.
Qed.

Lemma cuisine_of_label_None s : s ∉ cuisine_labels → cuisine_of_label s = None.
Proof.
  unfold cuisine_labels, cuisine_of_label. intros Hs.
  repeat match goal with
    | |- context [String.eqb s ?label] =>
        destruct (String.eqb_spec s label) as [->|_];
          [exfalso; apply Hs; label_listed|]
    end.
  done.
Qed.

Lemma tally_loop_acc l s c : tally_loop l s c = c + tally_loop l s 0.
Proof.
  revert c. induction l as [|d l IH]; intros c; simpl; [lia|].
  destruct (String.eqb _ _); [|done].
  rewrite (IH (c + 1)), (IH (0 + 1)). lia.
Qed.

Lemma tally_loop_cons d l s :
  tally_loop (d :: l) s 0
  = (if String.eqb (getCuisineType d) s then 1 else 0) + tally_loop l s 0.
Proof. simpl. destruct (String.eqb _ _); [apply tally_loop_acc | done]. Qed.

(** The tally is the number of live slots whose dish renders to the label. *)
Lemma tallyCuisineTypes_count k s :
  tallyCuisineTypes k s
  = Z.of_nat (length (filter (λ d, getCuisineType d = s) (items_ k))).
Proof.
  unfold tallyCuisineTypes. induction (items_ k) as [|d l IH]; [done|].
  rewrite tally_loop_cons, IH.
  destruct (String.eqb_spec (getCuisineType d) s) as [E|E].
  - rewrite filter_cons_True by done. simpl. lia.
  - rewrite filter_cons_False by done. lia.
Qed.

(** C6: for a string that is none of the seven labels the tally is 0, and,
    unless the string is "ALL", [releaseDishesOfCuisineType] returns 0 and
    gives back the kitchen unchanged. *)
Theorem unrecognized_label_matches_nothing k s :
  s ∉ cuisine_labels →
  tallyCuisineTypes k s = 0
  ∧ (s ≠ "ALL" → releaseDishesOfCuisineType k s = (0, k)).
Proof.
  intros Hs. split.
  - rewrite tallyCuisineTypes_count.
    assert (filter (λ d, getCuisineType d = s) (items_ k) = []) as ->; [|done].
    apply elem_of_nil_inv. intros d [<- _]%list_elem_of_filter.
    apply Hs, getCuisineType_recognized.
  - intros Hall. unfold releaseDishesOfCuisineType.
    apply String.eqb_neq in Hall. rewrite Hall.
    by rewrite cuisine_of_label_None.
Qed.

(** C10: when every stored dish renders to one of the seven labels, each
    dish is counted by exactly one of the seven tallies, so the tallies
    add up to the size of the kitchen. *)
Theorem tallies_add_up_to_size k :
  (∀ d, d ∈ items_ k → getCuisineType d ∈ cuisine_labels) →
  tallyCuisineTypes k "ITALIAN" + tallyCuisineTypes k "MEXICAN"
  + tallyCuisineTypes k "CHINESE" + tallyCuisineTypes k "INDIAN"
  + tallyCuisineTypes k "AMERICAN" + tallyCuisineTypes k "FRENCH"
  + tallyCuisineTypes k "OTHER"
  = getCurrentSize (items_ k).
Proof.
  unfold tallyCuisineTypes, getCurrentSize.
  induction (items_ k) as [|d l IH]; intros Hl; [done|].
  rewrite !tally_loop_cons, length_cons, Nat2Z.inj_succ, <- IH
    by (intros ??; apply Hl; by right).
  specialize (Hl d ltac:(by left)). unfold cuisine_labels in Hl.
  repeat (apply elem_of_cons in Hl as [->|Hl]; [simpl; lia|]).
  by apply elem_of_nil in Hl.
Qed.

(** ** The release functions *)

(** With threshold 0, or with the label "ALL", the bag is cleared and its
    former size is returned; the two aggregates are not touched. *)
Lemma release_all_keeps_aggregates k :
  let emptied :=
    {| items_ := [];
       totalprep_time_ := totalprep_time_ k;
       countelaborate := countelaborate k |} in
  releaseDishesBelowPrepTime k 0 = (getCurrentSize (items_ k), emptied)
  ∧ releaseDishesOfCuisineType k "ALL" = (getCurrentSize (items_ k), emptied).
Proof. done. Qed.

(** Every release call leaves a sub-multiset of the bag, returns the
    number of dishes that left, and keeps the two aggregates as they
    were. *)
Lemma releaseDishesBelowPrepTime_submseteq k t :
  ∃ b', releaseDishesBelowPrepTime k t =
          (Z.of_nat (length (items_ k)) - Z.of_nat (length b'),
           {| items_ := b';
              totalprep_time_ := totalprep_time_ k;
              countelaborate := countelaborate k |})
        ∧ b' ⊆+ items_ k.
Proof.
  unfold releaseDishesBelowPrepTime.
  destruct (Z.ltb_spec t 0); [|destruct (Z.eqb_spec t 0)].
  - exists (items_ k). split; [|done]. destruct k; simpl; f_equal; lia.
  - exists []. split; [|apply submseteq_nil_l].
    unfold getCurrentSize, clear. simpl; f_equal; lia.
  - destruct (release_loop_submseteq (λ item, getPrepTime item <? t)
                (length (items_ k)) (items_ k) 0) as (b' & -> & Hsub).
    exists b'. split; [|done]. f_equal; lia.
Qed.

Lemma releaseDishesOfCuisineType_submseteq k s :
  ∃ b', releaseDishesOfCuisineType k s =
          (Z.of_nat (length (items_ k)) - Z.of_nat (length b'),
           {| items_ := b';
              totalprep_time_ := totalprep_time_ k;
              countelaborate := countelaborate k |})
        ∧ b' ⊆+ items_ k.
Proof.
  unfold releaseDishesOfCuisineType.
  destruct (String.eqb s "ALL"); [|destruct (cuisine_of_label s)].
  - exists []. split; [|apply submseteq_nil_l].
    unfold getCurrentSize, clear. simpl; f_equal; lia.
  - destruct (release_loop_submseteq
                (λ item, String.eqb (getCuisineType item) s)
                (length (items_ k)) (items_ k) 0) as (b' & -> & Hsub).
    exists b'. split; [|done]. f_equal; lia.
  - exists (items_ k). split; [|done]. destruct k; simpl; f_equal; lia.
Qed.

(** On a kitchen without duplicates, [releaseDishesBelowPrepTime] with a
    positive threshold removes exactly the dishes whose preparation time
    is below the threshold and returns their number; the two aggregates
    keep the values they had. *)
Lemma releaseDishesBelowPrepTime_removes k t :
  NoDup (items_ k) → 0 < t →
  ∃ b', releaseDishesBelowPrepTime k t =
          (Z.of_nat (length (filter (λ d, getPrepTime d < t) (items_ k))),
           {| items_ := b';
              totalprep_time_ := totalprep_time_ k;
              countelaborate := countelaborate k |})
        ∧ b' ≡ₚ filter (λ d, ¬ getPrepTime d < t) (items_ k).
Proof.
  intros Hnd Ht. unfold releaseDishesBelowPrepTime.
  destruct (Z.ltb_spec t 0); [lia|]. destruct (Z.eqb_spec t 0); [lia|].
  destruct (release_loop_exact (λ item, getPrepTime item <? t)
              (length (items_ k)) (items_ k) 0) as (b' & -> & Hb');
    [done | done | by rewrite drop_all |].
  exists b'. rewrite firstn_all. split.
  - do 2 f_equal. rewrite Z.add_0_l. do 2 f_equal.
    apply list_filter_iff. intros d.
    by rewrite Is_true_true, Z.ltb_lt.
  - rewrite Hb'.
    by rewrite (list_filter_iff _ (λ d, ¬ getPrepTime d < t))
      by (intros d; by rewrite Is_true_true, Z.ltb_lt).
Qed.

(** Likewise [releaseDishesOfCuisineType] with one of the seven labels
    removes exactly the dishes that render to the label. *)
Lemma releaseDishesOfCuisineType_removes k s :
  NoDup (items_ k) → s ∈ cuisine_labels →
  ∃ b', releaseDishesOfCuisineType k s =
          (Z.of_nat (length (filter (λ d, getCuisineType d = s) (items_ k))),
           {| items_ := b';
              totalprep_time_ := totalprep_time_ k;
              countelaborate := countelaborate k |})
        ∧ b' ≡ₚ filter (λ d, getCuisineType d ≠ s) (items_ k).
Proof.
  intros Hnd Hs. unfold releaseDishesOfCuisineType.
  assert (String.eqb s "ALL" = false ∧ is_Some (cuisine_of_label s))
    as [-> [c ->]].
  { unfold cuisine_labels in Hs.
    repeat (apply elem_of_cons in Hs as [->|Hs]; [by split|]).
    by apply elem_of_nil in Hs. }
  destruct (release_loop_exact (λ item, String.eqb (getCuisineType item) s)
              (length (items_ k)) (items_ k) 0) as (b' & -> & Hb');
    [done | done | by rewrite drop_all |].
  exists b'. rewrite firstn_all. split.
  - do 2 f_equal. rewrite Z.add_0_l. do 2 f_equal.
    apply list_filter_iff. intros d.
    by rewrite Is_true_true, String.eqb_eq.
  - rewrite Hb'.
    by rewrite (list_filter_iff _ (λ d, getCuisineType d ≠ s))
      by (intros d; by rewrite Is_true_true, String.eqb_eq).
Qed.

(** ** The aggregates *)

Lemma prep_sum_app b1 b2 : prep_sum (b1 ++ b2) = prep_sum b1 + prep_sum b2.
Proof. induction b1 as [|d b1 IH]; simpl; lia. Qed.

#[local] Instance prep_sum_perm : Proper ((≡ₚ) ==> (=)) (prep_sum (Price := Price)).
Proof. intros b1 b2 H. induction H; simpl; lia. Qed.

Lemma elaborate_total_cons d b :
  elaborate_total (d :: b) = (if elaborate d then 1 else 0) + elaborate_total b.
Proof.
  unfold elaborate_total. rewrite filter_cons.
  destruct (elaborate d); simpl; lia.
Qed.

Lemma elaborate_total_app b1 b2 :
  elaborate_total (b1 ++ b2) = elaborate_total b1 + elaborate_total b2.
Proof.
  unfold elaborate_total. rewrite filter_app, length_app. lia.
Qed.

#[local] Instance elaborate_total_perm :
  Proper ((≡ₚ) ==> (=)) (elaborate_total (Price := Price)).
Proof. intros b1 b2 H. unfold elaborate_total. by rewrite H. Qed.

Lemma elaborate_total_nonneg b : 0 <= elaborate_total b.
Proof. unfold elaborate_total. lia. Qed.

Lemma prep_sum_nonneg b : Forall (λ d, 0 <= getPrepTime d) b → 0 <= prep_sum b.
Proof. induction 1; simpl; lia. Qed.

(** [newOrder] and [serveDish] keep the aggregates in step with a rescan
    of the bag. *)
Lemma newOrder_consistent k d :
  aggregates_consistent k →
  aggregates_consistent (newOrder DEFAULT_CAPACITY k d).2.
Proof.
  intros [Ht Hc].
  destruct (newOrder_cases k d) as [[-> _]|(_ & _ & ->)]; [done|].
  unfold aggregates_consistent, getPrepTimeSum, elaborateDishCount in *.
  cbn [snd items_ totalprep_time_ countelaborate].
  rewrite prep_sum_app, elaborate_total_app, elaborate_total_cons. simpl.
  rewrite Ht, Hc. unfold Int.add. split.
  - rewrite Int_wrap_wrap_add. f_equal; lia.
  - destruct (elaborate d).
    + rewrite Int_wrap_wrap_add. f_equal; unfold elaborate_total; simpl; lia.
    + f_equal; unfold elaborate_total; simpl; lia.
Qed.

Lemma serveDish_consistent k d :
  aggregates_consistent k → aggregates_consistent (serveDish k d).2.
Proof.
  intros [Ht Hc]. destruct (decide (d ∈ items_ k)) as [Hd|Hd].
  2:{ by rewrite serveDish_absent. }
  destruct (serveDish_stored k d Hd) as (b' & _ & Hperm & ->).
  unfold aggregates_consistent, getPrepTimeSum, elaborateDishCount in *.
  cbn [snd items_ totalprep_time_ countelaborate].
  assert (prep_sum (items_ k) = getPrepTime d + prep_sum b') as Hsum
    by (by rewrite Hperm).
  assert (elaborate_total (items_ k)
          = (if elaborate d then 1 else 0) + elaborate_total b') as Hcnt
    by (by rewrite Hperm, elaborate_total_cons).
  rewrite Ht, Hc, Hsum, Hcnt. unfold Int.sub. split.
  - replace (Int.wrap (getPrepTime d + prep_sum b') - getPrepTime d)
      with (Int.wrap (getPrepTime d + prep_sum b') + - getPrepTime d) by lia.
    rewrite Int_wrap_wrap_add. f_equal; lia.
  - destruct (elaborate d); [|done].
    replace (Int.wrap (1 + elaborate_total b') - 1)
      with (Int.wrap (1 + elaborate_total b') + - 1) by lia.
    rewrite Int_wrap_wrap_add. f_equal; lia.
Qed.

(** A run that only orders and serves keeps the aggregates in step with
    the bag; it takes a release to part them. *)
Lemma orders_and_serves_consistent ops :
  Forall (λ o, match o with NewOrder _ | ServeDish _ => True | _ => False end) ops →
  aggregates_consistent (run DEFAULT_CAPACITY ops Kitchen_new).
Proof.
  assert (∀ k, aggregates_consistent k →
               Forall (λ o, match o with
                            | NewOrder _ | ServeDish _ => True
                            | _ => False
                            end) ops →
               aggregates_consistent (run DEFAULT_CAPACITY ops k)) as H.
  { induction ops as [|o ops IH]; intros k Hk Hops; [done|].
    apply Forall_cons in Hops as [Ho Hops]. simpl. apply IH; [|done].
    destruct o as [d|d|t|s]; simpl; try done.
    - by apply newOrder_consistent.
    - by apply serveDish_consistent. }
  apply H. by vm_compute.
Qed.

(** ** Kitchens reached from the empty kitchen *)

Lemma step_NoDup k o : NoDup (items_ k) → NoDup (items_ (step DEFAULT_CAPACITY k o)).
Proof.
  intros Hnd. destruct o as [d|d|t|s]; simpl.
  - destruct (newOrder_cases k d) as [[-> _]|(Hd & _ & ->)]; [done|].
    simpl. apply NoDup_app. split_and!; [done| |apply NoDup_singleton].
    intros x Hx ->%list_elem_of_singleton. done.
  - destruct (decide (d ∈ items_ k)) as [Hd|Hd].
    2:{ by rewrite serveDish_absent. }
    destruct (serveDish_stored k d Hd) as (b' & _ & Hperm & ->). simpl.
    rewrite Hperm in Hnd. by apply NoDup_cons in Hnd as [_ ?].
  - destruct (releaseDishesBelowPrepTime_submseteq k t) as (b' & -> & Hsub).
    simpl. apply submseteq_Permutation in Hsub as [b'' Hperm].
    rewrite Hperm in Hnd. by apply NoDup_app in Hnd as [? _].
  - destruct (releaseDishesOfCuisineType_submseteq k s) as (b' & -> & Hsub).
    simpl. apply submseteq_Permutation in Hsub as [b'' Hperm].
    rewrite Hperm in Hnd. by apply NoDup_app in Hnd as [? _].
Qed.

Lemma run_NoDup ops k :
  NoDup (items_ k) → NoDup (items_ (run DEFAULT_CAPACITY ops k)).
Proof.
  revert k. induction ops as [|o ops IH]; intros k Hnd; [done|].
  simpl. by apply IH, step_NoDup.
Qed.

(** A kitchen reached from the empty kitchen never stores two equal
    dishes, so both release functions remove exactly the qualifying
    dishes from it. *)
Lemma reachable_NoDup ops : NoDup (items_ (run DEFAULT_CAPACITY ops Kitchen_new)).
Proof. apply run_NoDup. simpl. apply NoDup_nil_2. Qed.

(** The aggregates of a kitchen reached from the empty kitchen are [int]
    values, as the round trip of [newOrder] and [serveDish] supposes. *)
Lemma step_in_range k o :
  Int.in_range (totalprep_time_ k) ∧ Int.in_range (countelaborate k) →
  Int.in_range (totalprep_time_ (step DEFAULT_CAPACITY k o))
  ∧ Int.in_range (countelaborate (step DEFAULT_CAPACITY k o)).
Proof.
  intros [Ht Hc]. destruct o as [d|d|t|s]; simpl.
  - destruct (newOrder_cases k d) as [[-> _]|(_ & _ & ->)]; [done|]. simpl.
    split; [apply Int_wrap_in_range|].
    destruct (elaborate d); [apply Int_wrap_in_range | done].
  - destruct (decide (d ∈ items_ k)) as [Hd|Hd].
    2:{ by rewrite serveDish_absent. }
    destruct (serveDish_stored k d Hd) as (b' & _ & _ & ->). simpl.
    split; [apply Int_wrap_in_range|].
    destruct (elaborate d); [apply Int_wrap_in_range | done].
  - by destruct (releaseDishesBelowPrepTime_submseteq k t) as (b' & -> & _).
  - by destruct (releaseDishesOfCuisineType_submseteq k s) as (b' & -> & _).
Qed.

Lemma reachable_in_range ops :
  Int.in_range (totalprep_time_ (run DEFAULT_CAPACITY ops Kitchen_new))
  ∧ Int.in_range (countelaborate (run DEFAULT_CAPACITY ops Kitchen_new)).
Proof.
  assert (∀ k, Int.in_range (totalprep_time_ k) ∧ Int.in_range (countelaborate k) →
               Int.in_range (totalprep_time_ (run DEFAULT_CAPACITY ops k))
               ∧ Int.in_range (countelaborate (run DEFAULT_CAPACITY ops k))) as H.
  { induction ops as [|o ops IH]; intros k Hk; [done|].
    simpl. by apply IH, step_in_range. }
  apply H. by vm_compute.
Qed.

(** ** Runs without overflow *)

Lemma step_dominate k o :
  aggregates_dominate k → increment_fits DEFAULT_CAPACITY k o →
  aggregates_dominate (step DEFAULT_CAPACITY k o).
Proof.
  intros (Hpos & Ht & Hc) Hfit.
  pose proof (prep_sum_nonneg _ Hpos) as Hsum.
  pose proof (elaborate_total_nonneg (items_ k)) as Hcnt.
  destruct o as [d|d|t|s]; simpl in *.
  - destruct (newOrder_cases k d) as [[-> _]|(_ & _ & E)]; [done|].
    rewrite E in Hfit |- *. destruct (Hfit eq_refl) as (Hd & Hmax & Hcmax).
    unfold aggregates_dominate. cbn [snd items_ totalprep_time_ countelaborate].
    rewrite prep_sum_app, elaborate_total_app, elaborate_total_cons.
    change (elaborate_total []) with 0.
    unfold Int.add. simpl. split_and!.
    + apply Forall_app. split; [done|]. by constructor.
    + rewrite Int_wrap_id by (unfold Int.in_range, Int.MIN, Int.MAX in *; lia).
      lia.
    + rewrite Int_wrap_id by (unfold Int.in_range, Int.MIN, Int.MAX in *; lia).
      done.
    + destruct (elaborate d); [|lia].
      rewrite Int_wrap_id; [lia|].
      unfold Int.in_range, Int.MIN, Int.MAX in *. split; [lia|]. by apply Hcmax.
    + destruct (elaborate d); [|lia].
      rewrite Int_wrap_id; [by apply Hcmax|].
      unfold Int.in_range, Int.MIN, Int.MAX in *. split; [lia|]. by apply Hcmax.
  - destruct (decide (d ∈ items_ k)) as [Hd|Hd].
    2:{ by rewrite serveDish_absent. }
    destruct (serveDish_stored k d Hd) as (b' & _ & Hperm & ->).
    unfold aggregates_dominate. cbn [snd items_ totalprep_time_ countelaborate].
    rewrite Hperm in Hpos, Ht, Hc, Hsum. rewrite elaborate_total_cons in Hc.
    apply Forall_cons in Hpos as [Hp Hpos]. simpl in Ht, Hsum.
    pose proof (prep_sum_nonneg _ Hpos). pose proof (elaborate_total_nonneg b').
    unfold Int.sub. split_and!; [done|..].
    + rewrite Int_wrap_id by (unfold Int.in_range, Int.MIN, Int.MAX in *; lia).
      lia.
    + rewrite Int_wrap_id by (unfold Int.in_range, Int.MIN, Int.MAX in *; lia).
      lia.
    + destruct (elaborate d); [|lia].
      rewrite Int_wrap_id by (unfold Int.in_range, Int.MIN, Int.MAX in *; lia).
      lia.
    + destruct (elaborate d); [|lia].
      rewrite Int_wrap_id by (unfold Int.in_range, Int.MIN, Int.MAX in *; lia).
      lia.
  - destruct (releaseDishesBelowPrepTime_submseteq k t) as (b' & -> & Hsub).
    apply submseteq_Permutation in Hsub as [b'' Hperm].
    unfold aggregates_dominate. cbn [snd items_ totalprep_time_ countelaborate].
    rewrite Hperm in Hpos, Ht, Hc.
    rewrite prep_sum_app in Ht. rewrite elaborate_total_app in Hc.
    apply Forall_app in Hpos as [Hpos Hpos'].
    pose proof (prep_sum_nonneg _ Hpos'). pose proof (elaborate_total_nonneg b'').
    split_and!; [done|lia..].
  - destruct (releaseDishesOfCuisineType_submseteq k s) as (b' & -> & Hsub).
    apply submseteq_Permutation in Hsub as [b'' Hperm].
    unfold aggregates_dominate. cbn [snd items_ totalprep_time_ countelaborate].
    rewrite Hperm in Hpos, Ht, Hc.
    rewrite prep_sum_app in Ht. rewrite elaborate_total_app in Hc.
    apply Forall_app in Hpos as [Hpos Hpos'].
    pose proof (prep_sum_nonneg _ Hpos'). pose proof (elaborate_total_nonneg b'').
    split_and!; [done|lia..].
Qed.

Lemma run_dominate ops k :
  aggregates_dominate k → overflow_free DEFAULT_CAPACITY ops k →
  aggregates_dominate (run DEFAULT_CAPACITY ops k).
Proof.
  revert k. induction ops as [|o ops IH]; intros k Hk Hfree; [done|].
  destruct Hfree as [Hfit Hfree]. simpl. by apply IH, Hfree; apply step_dominate.
Qed.

(** Every prefix of a run without overflow is a run without overflow, so
    what holds at the end of all such runs holds after each operation. *)
Lemma overflow_free_prefix ops1 ops2 k :
  overflow_free DEFAULT_CAPACITY (ops1 ++ ops2) k →
  overflow_free DEFAULT_CAPACITY ops1 k.
Proof.
  revert k. induction ops1 as [|o ops1 IH]; intros k; [done|].
  simpl. intros [Hfit Hfree]. split; [done|]. by apply IH.
Qed.

(** C9, amended: in every run from the empty kitchen in which the dishes
    that enter have non-negative preparation times and no increment of an
    aggregate overflows, [getPrepTimeSum()] is at least the sum of the
    preparation times of the stored dishes and [elaborateDishCount()] at
    least the number of stored elaborate dishes, and so both are
    non-negative. *)
Theorem aggregates_bound_stored_without_overflow ops :
  overflow_free DEFAULT_CAPACITY ops Kitchen_new →
  let k := run DEFAULT_CAPACITY ops Kitchen_new in
  0 <= prep_sum (items_ k) <= getPrepTimeSum k
  ∧ 0 <= elaborate_total (items_ k) <= elaborateDishCount k.
Proof.
  intros Hfree k.
  destruct (run_dominate ops Kitchen_new) as (Hpos & Ht & Hc); [|done|].
  { unfold aggregates_dominate. split_and!; [constructor | by vm_compute..]. }
  pose proof (prep_sum_nonneg _ Hpos).
  pose proof (elaborate_total_nonneg (items_ k)).
  unfold getPrepTimeSum, elaborateDishCount. subst k. lia.
Qed.

(** ** The report *)

Lemma string_app_assoc (s1 s2 s3 : string) :
  (s1 +:+ s2) +:+ s3 = s1 +:+ (s2 +:+ s3).
Proof.
  induction s1 as [|c s1 IH]; [reflexivity|].
  change (String c ((s1 +:+ s2) +:+ s3) = String c (s1 +:+ (s2 +:+ s3))).
  by f_equal.
Qed.

(** C8: [kitchenReport] appends to the stream one count line per label,
    in the order ITALIAN, MEXICAN, CHINESE, INDIAN, AMERICAN, FRENCH,
    OTHER, each with the tally of [tallyCuisineTypes], then an empty
    line, the line of the average preparation time and the line of the
    elaborate percentage with two decimals and a percent sign.  It is a
    [const] member: it takes the kitchen and gives back only the stream. *)
Theorem kitchenReport_text k (cout : ostream) :
  kitchenReport k cout = cout +:+ unlines (report_lines k).
Proof.
  unfold kitchenReport, report_lines, cuisine_labels, unlines.
  unfold endl, put_int, put_fixed2, put_str.
  cbn [fmap list_fmap app foldr].
  rewrite !string_app_assoc. reflexivity.
Qed.

(** * Further properties of the operations *)

(** ** What a release call does to the bag *)

(** X1: whatever the threshold, [releaseDishesBelowPrepTime] returns the
    number of dishes that left the kitchen, leaves a sub-multiset of the
    dishes that were stored (it adds and alters none), and keeps both
    aggregates as they were. *)
Theorem releaseDishesBelowPrepTime_returns_size_drop k t :
  let '(removed_count, k') := releaseDishesBelowPrepTime k t in
  removed_count = getCurrentSize (items_ k) - getCurrentSize (items_ k')
  ∧ items_ k' ⊆+ items_ k
  ∧ totalprep_time_ k' = totalprep_time_ k
  ∧ countelaborate k' = countelaborate k.
Proof.
  destruct (releaseDishesBelowPrepTime_submseteq k t) as (b' & -> & Hsub).
  by cbn [items_ totalprep_time_ countelaborate].
Qed.

(** X2: whatever the label, [releaseDishesOfCuisineType] returns the
    number of dishes that left the kitchen, leaves a sub-multiset of the
    dishes that were stored, and keeps both aggregates as they were. *)
Theorem releaseDishesOfCuisineType_returns_size_drop k s :
  let '(removed_count, k') := releaseDishesOfCuisineType k s in
  removed_count = getCurrentSize (items_ k) - getCurrentSize (items_ k')
  ∧ items_ k' ⊆+ items_ k
  ∧ totalprep_time_ k' = totalprep_time_ k
  ∧ countelaborate k' = countelaborate k.
Proof.
  destruct (releaseDishesOfCuisineType_submseteq k s) as (b' & -> & Hsub).
  by cbn [items_ totalprep_time_ countelaborate].
Qed.

(** X3: on a kitchen that stores no dish twice, [releaseDishesBelowPrepTime]
    with a positive threshold keeps exactly the dishes whose preparation
    time is not below the threshold, and returns the number of dishes
    below it. *)
Theorem releaseDishesBelowPrepTime_exact k t :
  NoDup (items_ k) → 0 < t →
  let '(removed_count, k') := releaseDishesBelowPrepTime k t in
  removed_count
    = Z.of_nat (length (filter (λ d, getPrepTime d < t) (items_ k)))
  ∧ items_ k' ≡ₚ filter (λ d, ¬ getPrepTime d < t) (items_ k).
Proof.
  intros Hnd Ht.
  by destruct (releaseDishesBelowPrepTime_removes k t Hnd Ht) as (b' & -> & Hb').
Qed.

(** X4: on a kitchen that stores no dish twice, [releaseDishesOfCuisineType]
    with one of the seven labels keeps exactly the dishes of the other
    cuisines, and returns the number of dishes of that cuisine. *)
Theorem releaseDishesOfCuisineType_exact k s :
  NoDup (items_ k) → s ∈ cuisine_labels →
  let '(removed_count, k') := releaseDishesOfCuisineType k s in
  removed_count
    = Z.of_nat (length (filter (λ d, getCuisineType d = s) (items_ k)))
  ∧ items_ k' ≡ₚ filter (λ d, getCuisineType d ≠ s) (items_ k).
Proof.
  intros Hnd Hs.
  by destruct (releaseDishesOfCuisineType_removes k s Hnd Hs) as (b' & -> & Hb').
Qed.

(** ** Kitchens reached from the empty kitchen, continued *)

Lemma step_within_capacity k o :
  (length (items_ k) ≤ DEFAULT_CAPACITY)%nat →
  (length (items_ (step DEFAULT_CAPACITY k o)) ≤ DEFAULT_CAPACITY)%nat.
Proof.
  intros Hcap. destruct o as [d|d|t|s]; simpl.
  - destruct (newOrder_cases k d) as [[-> _]|(_ & Hroom & ->)]; [done|].
    simpl. rewrite length_app. simpl. lia.
  - destruct (decide (d ∈ items_ k)) as [Hd|Hd].
    2:{ by rewrite serveDish_absent. }
    destruct (serveDish_stored k d Hd) as (b' & _ & Hperm & ->). simpl.
    rewrite Hperm in Hcap. simpl in Hcap. lia.
  - destruct (releaseDishesBelowPrepTime_submseteq k t) as (b' & -> & Hsub).
    simpl. apply submseteq_length in Hsub. lia.
  - destruct (releaseDishesOfCuisineType_submseteq k s) as (b' & -> & Hsub).
    simpl. apply submseteq_length in Hsub. lia.
Qed.

(** X5: whatever sequence of [newOrder], [serveDish] and release calls is
    run on an empty kitchen, the kitchen never stores two equal dishes
    and never stores more dishes than the capacity of the bag. *)
Theorem reachable_kitchen_unique_and_bounded ops :
  let k := run DEFAULT_CAPACITY ops Kitchen_new in
  NoDup (items_ k) ∧ getCurrentSize (items_ k) <= Z.of_nat DEFAULT_CAPACITY.
Proof.
  split; [apply reachable_NoDup|].
  assert (∀ k, (length (items_ k) ≤ DEFAULT_CAPACITY)%nat →
               (length (items_ (run DEFAULT_CAPACITY ops k)) ≤ DEFAULT_CAPACITY)%nat)
    as H.
  { induction ops as [|o ops IH]; intros k Hk; [done|].
    simpl. by apply IH, step_within_capacity. }
  unfold getCurrentSize. apply Nat2Z.inj_le, H. simpl. lia.
Qed.

(** ** Outcomes of [newOrder] and [serveDish] *)

(** X6: [newOrder] returns true exactly when the dish is not stored yet
    and the bag has a free slot.  When it returns false the kitchen is
    unchanged; when it returns true the dish sits in the slot after the
    last one and no other slot has changed. *)
Theorem newOrder_outcome k d :
  let '(added, k') := newOrder DEFAULT_CAPACITY k d in
  (added = true ↔ (d ∉ items_ k) ∧ (length (items_ k) < DEFAULT_CAPACITY)%nat)
  ∧ (added = false → k' = k)
  ∧ (added = true → items_ k' = items_ k ++ [d]).
Proof.
  destruct (newOrder_cases k d) as [[-> Hwhy]|(Hd & Hroom & ->)].
  - split_and!; [|done..]. split; [done|]. intros [??]. by destruct Hwhy.
  - by split_and!.
Qed.

(** X7: [serveDish] returns true exactly when a dish equal to its argument
    is stored.  When it returns false the kitchen is unchanged; when it
    returns true exactly one copy of that dish has left and every other
    dish is still stored, so a kitchen without duplicates no longer
    stores the dish. *)
Theorem serveDish_outcome k d :
  let '(removed, k') := serveDish k d in
  (removed = true ↔ d ∈ items_ k)
  ∧ (removed = false → k' = k)
  ∧ (removed = true →
     items_ k ≡ₚ d :: items_ k' ∧ (NoDup (items_ k) → d ∉ items_ k')).
Proof.
  destruct (decide (d ∈ items_ k)) as [Hd|Hd].
  - destruct (serveDish_stored k d Hd) as (b' & _ & Hperm & ->).
    cbn [items_]. split_and!; [done..|]. intros _. split; [done|].
    rewrite Hperm. by intros [? _]%NoDup_cons.
  - rewrite serveDish_absent by done. by split_and!.
Qed.

(** X8: on a kitchen without duplicates and within capacity, serving a
    stored dish and ordering it again succeeds twice and gives back the
    same dishes (the dish now in the last slot) and the same values of
    both aggregates. *)
Theorem serveDish_newOrder_roundtrip k d :
  NoDup (items_ k) → (length (items_ k) ≤ DEFAULT_CAPACITY)%nat →
  Int.in_range (totalprep_time_ k) → Int.in_range (countelaborate k) →
  d ∈ items_ k →
  ∃ k1 k2, serveDish k d = (true, k1)
           ∧ newOrder DEFAULT_CAPACITY k1 d = (true, k2)
           ∧ items_ k2 ≡ₚ items_ k
           ∧ totalprep_time_ k2 = totalprep_time_ k
           ∧ countelaborate k2 = countelaborate k.
Proof.
  intros Hnd Hcap Ht Hc Hd.
  destruct (serveDish_stored k d Hd) as (b' & _ & Hperm & ->).
  rewrite Hperm in Hnd, Hcap. apply NoDup_cons in Hnd as [Hd' _]. simpl in Hcap.
  eexists _, _. split; [done|].
  rewrite newOrder_added by (cbn [items_]; (done || lia)).
  split; [done|]. cbn [items_ totalprep_time_ countelaborate].
  split_and!.
  - by rewrite Hperm, Permutation_app_comm.
  - unfold Int.add, Int.sub.
    replace (totalprep_time_ k - getPrepTime d)
      with (totalprep_time_ k + - getPrepTime d) by lia.
    rewrite Int_wrap_wrap_add, Int_wrap_id; [lia|].
    by replace (totalprep_time_ k + - getPrepTime d + getPrepTime d)
      with (totalprep_time_ k) by lia.
  - destruct (elaborate d); [|done]. unfold Int.add, Int.sub.
    replace (countelaborate k - 1) with (countelaborate k + - 1) by lia.
    rewrite Int_wrap_wrap_add, Int_wrap_id; [lia|].
    by replace (countelaborate k + - 1 + 1) with (countelaborate k) by lia.
Qed.

(** ** Releasing twice, and the tallies after a release *)

(** The loop leaves alone a bag none of whose items qualifies. *)
Lemma release_loop_none (P : Dish → bool) n b c :
  Forall (λ x, ¬ P x) b → release_loop P n b c = (c, b).
Proof.
  intros Hb. induction n as [|i IH]; [done|]. cbn [release_loop].
  destruct (b !! i) as [x|] eqn:Hx; [|done].
  eapply Forall_lookup_1 in Hb; [|done].
  by destruct (P x).
Qed.

(** X9: on a kitchen without duplicates, a second
    [releaseDishesBelowPrepTime] with the same threshold, whatever it is,
    returns 0 and leaves the kitchen as the first call left it. *)
Theorem releaseDishesBelowPrepTime_twice k t :
  NoDup (items_ k) →
  let k1 := (releaseDishesBelowPrepTime k t).2 in
  releaseDishesBelowPrepTime k1 t = (0, k1).
Proof.
  intros Hnd k1. subst k1. unfold releaseDishesBelowPrepTime.
  destruct (t <? 0) eqn:Hneg; [done|]. destruct (t =? 0) eqn:Hzero; [done|].
  destruct (release_loop_exact (λ item, getPrepTime item <? t)
              (length (items_ k)) (items_ k) 0) as (b' & -> & Hb');
    [done | done | by rewrite drop_all |].
  cbn [snd items_ totalprep_time_ countelaborate].
  rewrite release_loop_none; [done|].
  apply Forall_forall. intros d Hd. rewrite Hb' in Hd.
  by apply list_elem_of_filter in Hd as [Hd _].
Qed.

(** X10: on a kitchen without duplicates, [releaseDishesOfCuisineType]
    with one of the seven labels returns what [tallyCuisineTypes] counted
    for that label before the call; afterwards the tally of that label
    is 0 and the tally of every other label is what it was. *)
Theorem releaseDishesOfCuisineType_tallies k s :
  NoDup (items_ k) → s ∈ cuisine_labels →
  let '(removed_count, k') := releaseDishesOfCuisineType k s in
  removed_count = tallyCuisineTypes k s
  ∧ tallyCuisineTypes k' s = 0
  ∧ ∀ s', s' ≠ s → tallyCuisineTypes k' s' = tallyCuisineTypes k s'.
Proof.
  intros Hnd Hs.
  destruct (releaseDishesOfCuisineType_removes k s Hnd Hs) as (b' & -> & Hb').
  rewrite !tallyCuisineTypes_count. cbn [items_]. split; [done|].
  assert (∀ s', tallyCuisineTypes
                  {| items_ := b';
                     totalprep_time_ := totalprep_time_ k;
                     countelaborate := countelaborate k |} s'
                = Z.of_nat (length (filter (λ d, getCuisineType d = s'
                                                 ∧ getCuisineType d ≠ s)
                                      (items_ k)))) as Htally.
  { intros s'. rewrite tallyCuisineTypes_count. cbn [items_].
    by rewrite Hb', list_filter_filter. }
  split.
  - rewrite <- (tallyCuisineTypes_count
       {| items_ := b'; totalprep_time_ := totalprep_time_ k;
          countelaborate := countelaborate k |}), Htally.
    assert (filter (λ d, getCuisineType d = s ∧ getCuisineType d ≠ s) (items_ k)
            = []) as ->; [|done].
    apply elem_of_nil_inv. by intros d [[? ?] _]%list_elem_of_filter.
  - intros s' Hne. rewrite Htally, tallyCuisineTypes_count. do 2 f_equal.
    apply list_filter_iff. intros d. split; [by intros [? _]|].
    intros <-. done.
Qed.

(** X11: a tally lies between 0 and the size of the kitchen, and it does
    not depend on the slots the dishes sit in: two kitchens that store
    the same dishes have the same tallies. *)
Theorem tallyCuisineTypes_bounds_and_order k s :
  0 <= tallyCuisineTypes k s <= getCurrentSize (items_ k)
  ∧ ∀ k', items_ k' ≡ₚ items_ k →
          tallyCuisineTypes k' s = tallyCuisineTypes k s.
Proof.
  rewrite tallyCuisineTypes_count. unfold getCurrentSize. split.
  - pose proof (length_filter (λ d, getCuisineType d = s) (items_ k)). lia.
  - intros k' Hperm. by rewrite tallyCuisineTypes_count, Hperm.
Qed.

(** ** The aggregates in runs without a release *)

(** X12: in a run from the empty kitchen that only orders and serves,
    [getPrepTimeSum()] and [elaborateDishCount()] are what a rescan of the
    stored dishes with [int] accumulators gives, and when in addition no
    increment overflows they are the sum of the preparation times and
    the number of elaborate dishes themselves. *)
Theorem aggregates_exact_without_release ops :
  Forall (λ o, match o with NewOrder _ | ServeDish _ => True | _ => False end) ops →
  let k := run DEFAULT_CAPACITY ops Kitchen_new in
  aggregates_consistent k
  ∧ (overflow_free DEFAULT_CAPACITY ops Kitchen_new →
     getPrepTimeSum k = prep_sum (items_ k)
     ∧ elaborateDishCount k = elaborate_total (items_ k)).
Proof.
  intros Hops k. subst k.
  pose proof (orders_and_serves_consistent ops Hops) as Hcons.
  split; [done|]. intros Hfree.
  destruct (run_dominate ops Kitchen_new) as (Hpos & Ht & Hc); [|done|].
  { unfold aggregates_dominate. split_and!; [constructor | by vm_compute..]. }
  destruct Hcons as [-> ->].
  pose proof (prep_sum_nonneg _ Hpos).
  pose proof (elaborate_total_nonneg (items_ (run DEFAULT_CAPACITY ops Kitchen_new))).
  split; apply Int_wrap_id; unfold Int.in_range, Int.MIN, Int.MAX in *; lia.
Qed.

(** ** The queries and the order of the slots *)

(** X13: the report depends on the stored dishes and the two aggregates
    only, not on the slots the dishes sit in: for two kitchens that store
    the same dishes and have the same aggregates, [kitchenReport] writes
    the same text. *)
Theorem kitchenReport_order_independent k k' (cout : ostream) :
  items_ k' ≡ₚ items_ k →
  totalprep_time_ k' = totalprep_time_ k →
  countelaborate k' = countelaborate k →
  kitchenReport k' cout = kitchenReport k cout.
Proof.
  intros Hperm Ht Hc.
  assert (∀ s, tallyCuisineTypes k' s = tallyCuisineTypes k s) as Htally.
  { intros s. by rewrite !tallyCuisineTypes_count, Hperm. }
  assert (getCurrentSize (items_ k') = getCurrentSize (items_ k)) as Hsize.
  { unfold getCurrentSize. by rewrite Hperm. }
  unfold kitchenReport, calculateAvgPrepTime, calculateElaboratePercentage.
  by rewrite !Htally, Hsize, Ht, Hc.
Qed.

(** ** The rounded queries *)

Lemma calculateAvgPrepTime_nonempty k :
  getCurrentSize (items_ k) ≠ 0 →
  calculateAvgPrepTime k
  = Double.to_int
      (Double.round
         (Double.div (Double.of_int (totalprep_time_ k))
                     (Double.of_int (getCurrentSize (items_ k))))).
Proof.
  intros Hn. unfold calculateAvgPrepTime. cbv zeta.
  by destruct (Z.eqb_spec (getCurrentSize (items_ k)) 0).
Qed.

(** X15: on a kitchen that is not empty, whose running total is an [int]
    and whose size is at most [INT_MAX], [calculateAvgPrepTime] returns the
    integer nearest to the exact quotient of the running total by the
    number of dishes, halfway cases away from zero: the conversions to
    [double], the division, [std::round] and the conversion back lose
    nothing. *)
Theorem calculateAvgPrepTime_rounds_exactly k :
  Int.in_range (totalprep_time_ k) →
  0 < getCurrentSize (items_ k) <= Int.MAX →
  calculateAvgPrepTime k
  = round_half_away (totalprep_time_ k) (getCurrentSize (items_ k)).
Proof.
  intros Ht Hn. rewrite calculateAvgPrepTime_nonempty by lia.
  by apply div_round_to_int.
Qed.

Lemma calculateElaboratePercentage_nonempty k :
  getCurrentSize (items_ k) ≠ 0 →
  calculateElaboratePercentage k
  = elaborate_percentage_of (countelaborate k) (getCurrentSize (items_ k)).
Proof.
  intros Hn. unfold calculateElaboratePercentage. cbv zeta.
  by destruct (Z.eqb_spec (getCurrentSize (items_ k)) 0).
Qed.


(** X16: on a kitchen of at least one and fewer than 160 dishes whose
    count of elaborate dishes lies between 0 and the number of dishes,
    [calculateElaboratePercentage] returns the double nearest to the
    exact percentage rounded to two decimals, halfway cases up, and that
    double is written under [std::fixed] and [std::setprecision(2)] as
    this rounded percentage. *)
Theorem calculateElaboratePercentage_exact_below_160 k :
  0 < getCurrentSize (items_ k) < 160 →
  0 <= countelaborate k <= getCurrentSize (items_ k) →
  let hundredths :=
    round_half_away (10000 * countelaborate k) (getCurrentSize (items_ k)) in
  calculateElaboratePercentage k = Double.of_hundredths hundredths
  ∧ show_fixed2 (calculateElaboratePercentage k)
    = pretty (hundredths / 100) +:+ "." +:+ two_digits (hundredths mod 100).
Proof.
  intros Hsize Hcount hundredths.
  pose proof (percentage_exact_below_160 _ _ Hsize Hcount) as Hok.
  unfold percentage_exact in Hok. cbv zeta in Hok. fold hundredths in Hok.
  apply andb_prop in Hok as [Hvalue%bool_decide_eq_true Htext%bool_decide_eq_true].
  rewrite calculateElaboratePercentage_nonempty by lia.
  by rewrite Hvalue.
Qed.

(** At 160 dishes the percentage is no longer the exactly rounded one:
    23 elaborate dishes out of 160 are 14.375 percent, and the code
    returns 14.37. *)
Lemma calculateElaboratePercentage_160 k :
  getCurrentSize (items_ k) = 160 → countelaborate k = 23 →
  show_fixed2 (calculateElaboratePercentage k) = "14.37"
  ∧ round_half_away (10000 * countelaborate k) (getCurrentSize (items_ k)) = 1438.
Proof.
  intros Hsize Hcount.
  rewrite calculateElaboratePercentage_nonempty by lia.
  rewrite Hsize, Hcount. by vm_compute.
Qed.

(** ** The rounded queries in runs without a release *)

Lemma run_within_capacity ops k :
  (length (items_ k) ≤ DEFAULT_CAPACITY)%nat →
  (length (items_ (run DEFAULT_CAPACITY ops k)) ≤ DEFAULT_CAPACITY)%nat.
Proof.
  revert k. induction ops as [|o ops IH]; intros k Hk; [done|].
  simpl. by apply IH, step_within_capacity.
Qed.

Lemma elaborate_total_le_size b : elaborate_total b <= getCurrentSize b.
Proof.
  unfold elaborate_total, getCurrentSize. apply Nat2Z.inj_le, length_filter.
Qed.

Lemma run_aggregates_exact ops :
  Forall (λ o, match o with NewOrder _ | ServeDish _ => True | _ => False end) ops →
  overflow_free DEFAULT_CAPACITY ops Kitchen_new →
  totalprep_time_ (run DEFAULT_CAPACITY ops Kitchen_new)
  = prep_sum (items_ (run DEFAULT_CAPACITY ops Kitchen_new))
  ∧ countelaborate (run DEFAULT_CAPACITY ops Kitchen_new)
    = elaborate_total (items_ (run DEFAULT_CAPACITY ops Kitchen_new)).
Proof.
  intros Hops Hfree.
  destruct (orders_and_serves_consistent ops Hops) as [Hsum Hcnt].
  unfold getPrepTimeSum, elaborateDishCount in *.
  destruct (run_dominate ops Kitchen_new) as (Hpos & Ht & Hc); [|done|].
  { unfold aggregates_dominate. split_and!; [constructor | by vm_compute..]. }
  pose proof (prep_sum_nonneg _ Hpos).
  pose proof (elaborate_total_nonneg (items_ (run DEFAULT_CAPACITY ops Kitchen_new))).
  rewrite Hsum, Hcnt.
  split; apply Int_wrap_id; unfold Int.in_range, Int.MIN, Int.MAX in *; lia.
Qed.

(** X17: in a run of [newOrder] and [serveDish] calls on an empty kitchen
    in which no increment overflows, with a capacity that is an [int],
    the average reported for a kitchen that is not empty is the exact
    mean of the preparation times of the stored dishes, rounded to the
    nearest integer, halfway cases up; and with a capacity below 160 the
    percentage is the double nearest to the exact share of the stored
    elaborate dishes, in percent, rounded to two decimals. *)
Theorem rounded_queries_of_stored_dishes ops :
  Forall (λ o, match o with NewOrder _ | ServeDish _ => True | _ => False end) ops →
  overflow_free DEFAULT_CAPACITY ops Kitchen_new →
  Z.of_nat DEFAULT_CAPACITY <= Int.MAX →
  let k := run DEFAULT_CAPACITY ops Kitchen_new in
  items_ k ≠ [] →
  calculateAvgPrepTime k
  = round_half_away (prep_sum (items_ k)) (getCurrentSize (items_ k))
  ∧ ((DEFAULT_CAPACITY < 160)%nat →
     calculateElaboratePercentage k
     = Double.of_hundredths
         (round_half_away (10000 * elaborate_total (items_ k))
                          (getCurrentSize (items_ k)))).
Proof.
  intros Hops Hfree Hcap k Hne.
  destruct (run_aggregates_exact ops Hops Hfree) as [Hsum Hcnt]. fold k in Hsum, Hcnt.
  pose proof (run_within_capacity ops Kitchen_new ltac:(simpl; lia)) as Hlen.
  fold k in Hlen.
  assert (0 < getCurrentSize (items_ k)) as Hpos.
  { unfold getCurrentSize. destruct (items_ k); [done|]. simpl. lia. }
  assert (getCurrentSize (items_ k) <= Z.of_nat DEFAULT_CAPACITY) as Hsize.
  { unfold getCurrentSize. lia. }
  split.
  - rewrite <- Hsum, calculateAvgPrepTime_nonempty by lia.
    apply div_round_to_int; [|lia].
    destruct (reachable_in_range ops) as [Ht _]. done.
  - intros Hsmall. rewrite calculateElaboratePercentage_nonempty by lia.
    rewrite Hcnt.
    pose proof (elaborate_total_nonneg (items_ k)).
    pose proof (elaborate_total_le_size (items_ k)).
    pose proof (percentage_exact_below_160 (elaborate_total (items_ k))
                  (getCurrentSize (items_ k)) ltac:(lia) ltac:(lia)) as Hok.
    unfold percentage_exact in Hok. cbv zeta in Hok.
    by apply andb_prop in Hok as [Hvalue%bool_decide_eq_true _].
Qed.

End properties.

(** * The code on concrete kitchens *)

(** C1, on the code: after a dish is ordered and then released, by the
    threshold 0, by a threshold above its preparation time, or by its
    cuisine label, the kitchen stores no dish, yet [getPrepTimeSum()] is
    still 90 and [elaborateDishCount()] still 1, where the sum and the
    count over the stored dishes are 0.  The aggregates were consistent
    before the release. *)
Theorem aggregates_stale_after_release :
  aggregates_consistent (run 10 [NewOrder dish2] Kitchen_new)
  ∧ Forall
      (λ release,
         let k := run 10 [NewOrder dish2; release] Kitchen_new in
         items_ k = []
         ∧ prep_sum (items_ k) = 0 ∧ getPrepTimeSum k = 90
         ∧ elaborate_total (items_ k) = 0 ∧ elaborateDishCount k = 1)
      [ReleaseBelow 0; ReleaseBelow 100; ReleaseCuisine "AMERICAN";
       ReleaseCuisine "ALL"].
Proof. split; [done|]. repeat constructor. Qed.

(** C2, on the code: on the kitchen of the test driver, with its four
    dishes, a sum of 155 and one elaborate dish, both
    [releaseDishesBelowPrepTime(0)] and [releaseDishesOfCuisineType("ALL")]
    return 4 and leave no dish, but [totalprep_time_] is still 155 and
    [countelaborate] still 1. *)
Theorem release_all_leaves_aggregates :
  getCurrentSize (items_ test_kitchen) = 4
  ∧ releaseDishesBelowPrepTime test_kitchen 0
    = (4, {| items_ := []; totalprep_time_ := 155; countelaborate := 1 |})
  ∧ releaseDishesOfCuisineType test_kitchen "ALL"
    = (4, {| items_ := []; totalprep_time_ := 155; countelaborate := 1 |}).
Proof. done. Qed.

(** C3, on the code: on the kitchen holding dishes with preparation
    times 59, 60 and 61, whose sum is 180, [releaseDishesBelowPrepTime(60)]
    returns 1 and removes the dish of 59 only, with the dish of 61 moved
    into its slot; [totalprep_time_] is still 180, where [serveDish] of
    the same dish brings it to 121. *)
Theorem release_below_60_keeps_sum :
  getPrepTimeSum boundary_kitchen = 180
  ∧ releaseDishesBelowPrepTime boundary_kitchen 60
    = (1, {| items_ := [dish61; dish60];
             totalprep_time_ := 180;
             countelaborate := 0 |})
  ∧ serveDish boundary_kitchen dish59
    = (true, {| items_ := [dish61; dish60];
                totalprep_time_ := 121;
                countelaborate := 0 |}).
Proof. done. Qed.

(** C9 fails as stated: two dishes whose preparation time is the largest
    [int] make the sum wrap around, and [getPrepTimeSum()] is negative. *)
Lemma prep_time_sum_negative_after_overflow :
  ¬ (0 <= getPrepTimeSum
            (run 10 [NewOrder long_dish_a; NewOrder long_dish_b] Kitchen_new)).
Proof. by vm_compute. Qed.


(** ** The spec's examples of rounding, on the binary64 model *)

Example calculateAvgPrepTime_empty :
  calculateAvgPrepTime (Kitchen_new (Price := Z)) = 0.
Proof. done. Qed.

Example calculateElaboratePercentage_empty :
  show_fixed2 (calculateElaboratePercentage (Kitchen_new (Price := Z))) = "0.00".
Proof. done. Qed.

(** Preparation times 20, 90, 15 and 30 average to 38.75, rounded to 39;
    one elaborate dish out of four is 25.00 percent. *)
Example calculateAvgPrepTime_test_kitchen :
  calculateAvgPrepTime test_kitchen = 39.
Proof. by vm_compute. Qed.

Example calculateElaboratePercentage_test_kitchen :
  show_fixed2 (calculateElaboratePercentage test_kitchen) = "25.00".
Proof. by vm_compute. Qed.

(** Two elaborate dishes out of four are 50.00 percent. *)
Example calculateElaboratePercentage_half :
  elaborateDishCount half_elaborate_kitchen = 2
  ∧ getCurrentSize (items_ half_elaborate_kitchen) = 4
  ∧ calculateElaboratePercentage half_elaborate_kitchen = Double.of_int 50
  ∧ show_fixed2 (calculateElaboratePercentage half_elaborate_kitchen) = "50.00".
Proof. by vm_compute. Qed.

Example kitchenReport_test_kitchen :
  kitchenReport test_kitchen ""
  = unlines
      [ "ITALIAN: 2"; "MEXICAN: 1"; "CHINESE: 0"; "INDIAN: 0"; "AMERICAN: 1";
        "FRENCH: 0"; "OTHER: 0"; ""; "AVERAGE PREP TIME: 39";
        "ELABORATE: 25.00%" ].
Proof. by vm_compute. Qed.

(** * The test driver *)

(** X14: with a bag of at least four slots, the program of [test.cpp]
    writes the heading, the seven count lines with two Italian dishes,
    one Mexican and one American, an empty line, the average 39 and the
    percentage 25.00, and returns 0: of its four dishes only the beef
    stew is elaborate. *)
Theorem main_output (DEFAULT_CAPACITY : nat) :
  (4 ≤ DEFAULT_CAPACITY)%nat →
  main DEFAULT_CAPACITY
  = (unlines
       [ "---- Testing kitchenReport Function ----";
         "ITALIAN: 2"; "MEXICAN: 1"; "CHINESE: 0"; "INDIAN: 0"; "AMERICAN: 1";
         "FRENCH: 0"; "OTHER: 0"; ""; "AVERAGE PREP TIME: 39";
         "ELABORATE: 25.00%" ],
     0).
Proof.
  intros Hcap.
  assert (∀ (k : Kitchen (Price := Double.t)) d,
            contains (items_ k) d = false → (length (items_ k) < 4)%nat →
            (newOrder DEFAULT_CAPACITY k d).2 = (newOrder 4 k d).2) as Hroom.
  { intros k d Hd%contains_false Hlen.
    by rewrite !newOrder_added by (done || lia). }
  transitivity (main 4); [|by vm_compute].
  unfold main. cbv zeta.
  rewrite (Hroom Kitchen_new) by (vm_compute; (reflexivity || lia)).
  match goal with
  | |- context [newOrder DEFAULT_CAPACITY (newOrder 4 ?k ?d).2 ?d'] =>
      rewrite (Hroom (newOrder 4 k d).2 d') by (vm_compute; (reflexivity || lia))
  end.
  match goal with
  | |- context [newOrder DEFAULT_CAPACITY (newOrder 4 ?k ?d).2 ?d'] =>
      rewrite (Hroom (newOrder 4 k d).2 d') by (vm_compute; (reflexivity || lia))
  end.
  match goal with
  | |- context [newOrder DEFAULT_CAPACITY (newOrder 4 ?k ?d).2 ?d'] =>
      rewrite (Hroom (newOrder 4 k d).2 d') by (vm_compute; (reflexivity || lia))
  end.
  reflexivity.
Qed.

(** * Instances of the general statements *)

(** The round trip on the kitchen of the test driver and a fifth dish. *)
Lemma newOrder_serveDish_roundtrip_witness :
  Int.in_range (totalprep_time_ test_kitchen)
  ∧ Int.in_range (countelaborate test_kitchen)
  ∧ newOrder 10 test_kitchen dish59
    = (true, (newOrder 10 test_kitchen dish59).2)
  ∧ (dish59 ∉ items_ test_kitchen)
  ∧ serveDish (newOrder 10 test_kitchen dish59).2 dish59 = (true, test_kitchen).
Proof.
  set (k1 := (newOrder 10 test_kitchen dish59).2).
  assert (Int.in_range (totalprep_time_ test_kitchen)) as Ht
    by (vm_compute; split; discriminate).
  assert (Int.in_range (countelaborate test_kitchen)) as Hc
    by (vm_compute; split; discriminate).
  assert (newOrder 10 test_kitchen dish59 = (true, k1)) as Hadd by reflexivity.
  split; [exact Ht|]. split; [exact Hc|]. split; [exact Hadd|].
  exact (newOrder_serveDish_roundtrip 10 test_kitchen dish59 k1 Ht Hc Hadd).
Defined.

(** A second order of the first dish of the test driver. *)
Lemma newOrder_duplicate_rejected_witness :
  (dish1 ∈ items_ test_kitchen)
  ∧ newOrder 10 test_kitchen dish1 = (false, test_kitchen)
  ∧ newOrder 10 (newOrder 10 test_kitchen dish1).2 dish1
    = (false, (newOrder 10 test_kitchen dish1).2).
Proof.
  assert (dish1 ∈ items_ test_kitchen) as Hin by (vm_compute; left).
  split; [exact Hin|].
  pose proof (newOrder_duplicate_rejected 10 test_kitchen dish1) as [H1 H2].
  split; [exact (H1 Hin) | exact H2].
Defined.

(** The label "UNKNOWN" on the kitchen of the test driver. *)
Lemma unrecognized_label_matches_nothing_witness :
  ("UNKNOWN" ∉ cuisine_labels)
  ∧ tallyCuisineTypes test_kitchen "UNKNOWN" = 0
  ∧ releaseDishesOfCuisineType test_kitchen "UNKNOWN" = (0, test_kitchen).
Proof.
  assert ("UNKNOWN" ∉ cuisine_labels) as Hs.
  { unfold cuisine_labels. intros H.
    repeat (apply elem_of_cons in H as [H|H]; [discriminate H|]).
    by apply elem_of_nil in H. }
  split; [exact Hs|].
  pose proof (unrecognized_label_matches_nothing test_kitchen "UNKNOWN" Hs)
    as [H1 H2].
  split; [exact H1 | apply H2; discriminate].
Defined.

(** The seven tallies of the kitchen of the test driver add up to 4. *)
Lemma tallies_add_up_to_size_witness :
  (∀ d, d ∈ items_ test_kitchen → getCuisineType d ∈ cuisine_labels)
  ∧ tallyCuisineTypes test_kitchen "ITALIAN"
    + tallyCuisineTypes test_kitchen "MEXICAN"
    + tallyCuisineTypes test_kitchen "CHINESE"
    + tallyCuisineTypes test_kitchen "INDIAN"
    + tallyCuisineTypes test_kitchen "AMERICAN"
    + tallyCuisineTypes test_kitchen "FRENCH"
    + tallyCuisineTypes test_kitchen "OTHER"
    = getCurrentSize (items_ test_kitchen).
Proof.
  assert (∀ d, d ∈ items_ test_kitchen → getCuisineType d ∈ cuisine_labels)
    as Hlabels.
  { intros d Hd. vm_compute in Hd.
    repeat (apply elem_of_cons in Hd as [->|Hd];
            [vm_compute; repeat first [left | right]|]).
    by apply elem_of_nil in Hd. }
  split; [exact Hlabels|].
  exact (tallies_add_up_to_size test_kitchen Hlabels).
Defined.

(** A run that stays within the range of [int], with a release that
    leaves the aggregates above the stored quantities. *)
Lemma aggregates_bound_stored_without_overflow_witness :
  overflow_free 10 sample_run Kitchen_new
  ∧ 0 <= prep_sum (items_ (run 10 sample_run Kitchen_new))
      <= getPrepTimeSum (run 10 sample_run Kitchen_new)
  ∧ 0 <= elaborate_total (items_ (run 10 sample_run Kitchen_new))
      <= elaborateDishCount (run 10 sample_run Kitchen_new).
Proof.
  assert (overflow_free 10 sample_run Kitchen_new) as Hfree.
  { vm_compute. repeat split; intros; discriminate. }
  split; [exact Hfree|].
  exact (aggregates_bound_stored_without_overflow 10 sample_run Hfree).
Defined.


(** * Instances of the further properties *)

(** The kitchen of the test driver is reached from the empty kitchen. *)
Lemma test_kitchen_NoDup : NoDup (items_ test_kitchen).
Proof.
  exact (reachable_NoDup 10
           [NewOrder dish1; NewOrder dish2; NewOrder dish3; NewOrder dish4]).
Defined.

Lemma boundary_kitchen_NoDup : NoDup (items_ boundary_kitchen).
Proof.
  exact (reachable_NoDup 10 [NewOrder dish59; NewOrder dish60; NewOrder dish61]).
Defined.

Lemma releaseDishesBelowPrepTime_exact_witness :
  NoDup (items_ boundary_kitchen) ∧ 0 < 60
  ∧ (let '(removed_count, k') := releaseDishesBelowPrepTime boundary_kitchen 60 in
     removed_count
       = Z.of_nat (length (filter (λ d, getPrepTime d < 60)
                             (items_ boundary_kitchen)))
     ∧ items_ k' ≡ₚ filter (λ d, ¬ getPrepTime d < 60) (items_ boundary_kitchen)).
Proof.
  assert (0 < 60) as Ht by lia.
  split; [exact boundary_kitchen_NoDup|]. split; [exact Ht|].
  exact (releaseDishesBelowPrepTime_exact boundary_kitchen 60
           boundary_kitchen_NoDup Ht).
Defined.

Lemma italian_listed : "ITALIAN" ∈ cuisine_labels.
Proof. by left. Defined.

Lemma releaseDishesOfCuisineType_exact_witness :
  NoDup (items_ test_kitchen) ∧ "ITALIAN" ∈ cuisine_labels
  ∧ (let '(removed_count, k') := releaseDishesOfCuisineType test_kitchen "ITALIAN" in
     removed_count
       = Z.of_nat (length (filter (λ d, getCuisineType d = "ITALIAN")
                             (items_ test_kitchen)))
     ∧ items_ k' ≡ₚ filter (λ d, getCuisineType d ≠ "ITALIAN") (items_ test_kitchen)).
Proof.
  split; [exact test_kitchen_NoDup|]. split; [exact italian_listed|].
  exact (releaseDishesOfCuisineType_exact test_kitchen "ITALIAN"
           test_kitchen_NoDup italian_listed).
Defined.

Lemma newOrder_outcome_witness :
  ((newOrder 10 test_kitchen dish59).1 = true
   ↔ (dish59 ∉ items_ test_kitchen) ∧ (length (items_ test_kitchen) < 10)%nat)
  ∧ ((newOrder 10 test_kitchen dish59).1 = false
     → (newOrder 10 test_kitchen dish59).2 = test_kitchen)
  ∧ ((newOrder 10 test_kitchen dish59).1 = true
     → items_ (newOrder 10 test_kitchen dish59).2
       = items_ test_kitchen ++ [dish59]).
Proof. exact (newOrder_outcome 10 test_kitchen dish59). Defined.

Lemma serveDish_outcome_witness :
  ((serveDish test_kitchen dish2).1 = true ↔ dish2 ∈ items_ test_kitchen)
  ∧ ((serveDish test_kitchen dish2).1 = false
     → (serveDish test_kitchen dish2).2 = test_kitchen)
  ∧ ((serveDish test_kitchen dish2).1 = true →
     items_ test_kitchen ≡ₚ dish2 :: items_ (serveDish test_kitchen dish2).2
     ∧ (NoDup (items_ test_kitchen)
        → dish2 ∉ items_ (serveDish test_kitchen dish2).2)).
Proof. exact (serveDish_outcome test_kitchen dish2). Defined.

Lemma serveDish_newOrder_roundtrip_witness :
  NoDup (items_ test_kitchen)
  ∧ (length (items_ test_kitchen) ≤ 10)%nat
  ∧ Int.in_range (totalprep_time_ test_kitchen)
  ∧ Int.in_range (countelaborate test_kitchen)
  ∧ (dish2 ∈ items_ test_kitchen)
  ∧ ∃ k1 k2, serveDish test_kitchen dish2 = (true, k1)
             ∧ newOrder 10 k1 dish2 = (true, k2)
             ∧ items_ k2 ≡ₚ items_ test_kitchen
             ∧ totalprep_time_ k2 = totalprep_time_ test_kitchen
             ∧ countelaborate k2 = countelaborate test_kitchen.
Proof.
  assert (length (items_ test_kitchen) ≤ 10)%nat as Hcap by (vm_compute; lia).
  assert (Int.in_range (totalprep_time_ test_kitchen)) as Ht
    by (vm_compute; split; discriminate).
  assert (Int.in_range (countelaborate test_kitchen)) as Hc
    by (vm_compute; split; discriminate).
  assert (dish2 ∈ items_ test_kitchen) as Hd by (vm_compute; right; left).
  split; [exact test_kitchen_NoDup|]. split; [exact Hcap|].
  split; [exact Ht|]. split; [exact Hc|]. split; [exact Hd|].
  exact (serveDish_newOrder_roundtrip 10 test_kitchen dish2
           test_kitchen_NoDup Hcap Ht Hc Hd).
Defined.

Lemma releaseDishesBelowPrepTime_twice_witness :
  NoDup (items_ boundary_kitchen)
  ∧ releaseDishesBelowPrepTime (releaseDishesBelowPrepTime boundary_kitchen 60).2 60
    = (0, (releaseDishesBelowPrepTime boundary_kitchen 60).2).
Proof.
  split; [exact boundary_kitchen_NoDup|].
  exact (releaseDishesBelowPrepTime_twice boundary_kitchen 60 boundary_kitchen_NoDup).
Defined.

Lemma releaseDishesOfCuisineType_tallies_witness :
  NoDup (items_ test_kitchen) ∧ "ITALIAN" ∈ cuisine_labels
  ∧ (let '(removed_count, k') := releaseDishesOfCuisineType test_kitchen "ITALIAN" in
     removed_count = tallyCuisineTypes test_kitchen "ITALIAN"
     ∧ tallyCuisineTypes k' "ITALIAN" = 0
     ∧ ∀ s', s' ≠ "ITALIAN" →
             tallyCuisineTypes k' s' = tallyCuisineTypes test_kitchen s').
Proof.
  split; [exact test_kitchen_NoDup|]. split; [exact italian_listed|].
  exact (releaseDishesOfCuisineType_tallies test_kitchen "ITALIAN"
           test_kitchen_NoDup italian_listed).
Defined.

Lemma tallyCuisineTypes_bounds_and_order_witness :
  0 <= tallyCuisineTypes test_kitchen "ITALIAN"
    <= getCurrentSize (items_ test_kitchen)
  ∧ ∀ k', items_ k' ≡ₚ items_ test_kitchen →
          tallyCuisineTypes k' "ITALIAN" = tallyCuisineTypes test_kitchen "ITALIAN".
Proof. exact (tallyCuisineTypes_bounds_and_order test_kitchen "ITALIAN"). Defined.

Lemma aggregates_exact_without_release_witness :
  Forall (λ o, match o with NewOrder _ | ServeDish _ => True | _ => False end)
    orders_and_serves_run
  ∧ overflow_free 10 orders_and_serves_run Kitchen_new
  ∧ aggregates_consistent (run 10 orders_and_serves_run Kitchen_new)
  ∧ getPrepTimeSum (run 10 orders_and_serves_run Kitchen_new)
    = prep_sum (items_ (run 10 orders_and_serves_run Kitchen_new))
  ∧ elaborateDishCount (run 10 orders_and_serves_run Kitchen_new)
    = elaborate_total (items_ (run 10 orders_and_serves_run Kitchen_new)).
Proof.
  set (ops := orders_and_serves_run).
  assert (Forall (λ o, match o with
                       | NewOrder _ | ServeDish _ => True
                       | _ => False
                       end) ops) as Hops by (repeat constructor).
  assert (overflow_free 10 ops Kitchen_new) as Hfree.
  { vm_compute. repeat split; intros; discriminate. }
  destruct (aggregates_exact_without_release 10 ops Hops) as [Hcons Hexact].
  split; [exact Hops|]. split; [exact Hfree|]. split; [exact Hcons|].
  exact (Hexact Hfree).
Defined.

Lemma kitchenReport_order_independent_witness :
  items_ reversed_test_kitchen ≡ₚ items_ test_kitchen
  ∧ totalprep_time_ reversed_test_kitchen = totalprep_time_ test_kitchen
  ∧ countelaborate reversed_test_kitchen = countelaborate test_kitchen
  ∧ kitchenReport reversed_test_kitchen "" = kitchenReport test_kitchen "".
Proof.
  assert (items_ reversed_test_kitchen ≡ₚ items_ test_kitchen) as Hperm
    by apply reverse_Permutation.
  split; [exact Hperm|]. split; [reflexivity|]. split; [reflexivity|].
  exact (kitchenReport_order_independent test_kitchen reversed_test_kitchen ""
           Hperm eq_refl eq_refl).
Defined.

Lemma main_output_witness :
  (4 ≤ 10)%nat
  ∧ main 10
    = (unlines
         [ "---- Testing kitchenReport Function ----";
           "ITALIAN: 2"; "MEXICAN: 1"; "CHINESE: 0"; "INDIAN: 0"; "AMERICAN: 1";
           "FRENCH: 0"; "OTHER: 0"; ""; "AVERAGE PREP TIME: 39";
           "ELABORATE: 25.00%" ],
       0).
Proof.
  assert (4 ≤ 10)%nat as Hcap by lia.
  split; [exact Hcap|]. exact (main_output 10 Hcap).
Defined.

Lemma calculateAvgPrepTime_rounds_exactly_witness :
  Int.in_range (totalprep_time_ test_kitchen)
  ∧ 0 < getCurrentSize (items_ test_kitchen) <= Int.MAX
  ∧ calculateAvgPrepTime test_kitchen
    = round_half_away (totalprep_time_ test_kitchen)
                      (getCurrentSize (items_ test_kitchen)).
Proof.
  assert (Int.in_range (totalprep_time_ test_kitchen)) as Ht.
  { vm_compute. split; discriminate. }
  assert (0 < getCurrentSize (items_ test_kitchen) <= Int.MAX) as Hn.
  { vm_compute. split; [reflexivity | discriminate]. }
  exact (conj Ht (conj Hn (calculateAvgPrepTime_rounds_exactly test_kitchen Ht Hn))).
Defined.

Lemma calculateElaboratePercentage_exact_below_160_witness :
  0 < getCurrentSize (items_ test_kitchen) < 160
  ∧ 0 <= countelaborate test_kitchen <= getCurrentSize (items_ test_kitchen)
  ∧ calculateElaboratePercentage test_kitchen
    = Double.of_hundredths
        (round_half_away (10000 * countelaborate test_kitchen)
                         (getCurrentSize (items_ test_kitchen)))
  ∧ show_fixed2 (calculateElaboratePercentage test_kitchen)
    = pretty (round_half_away (10000 * countelaborate test_kitchen)
                              (getCurrentSize (items_ test_kitchen)) / 100)
      +:+ "."
      +:+ two_digits (round_half_away (10000 * countelaborate test_kitchen)
                                      (getCurrentSize (items_ test_kitchen)) mod 100).
Proof.
  assert (0 < getCurrentSize (items_ test_kitchen) < 160) as Hsize.
  { vm_compute. split; reflexivity. }
  assert (0 <= countelaborate test_kitchen <= getCurrentSize (items_ test_kitchen))
    as Hcount.
  { vm_compute. split; discriminate. }
  exact (conj Hsize (conj Hcount
           (calculateElaboratePercentage_exact_below_160 test_kitchen Hsize Hcount))).
Defined.

Lemma rounded_queries_of_stored_dishes_witness :
  Forall (λ o, match o with NewOrder _ | ServeDish _ => True | _ => False end)
    orders_and_serves_run
  ∧ overflow_free 10 orders_and_serves_run Kitchen_new
  ∧ Z.of_nat 10 <= Int.MAX
  ∧ items_ (run 10 orders_and_serves_run Kitchen_new) ≠ []
  ∧ calculateAvgPrepTime (run 10 orders_and_serves_run Kitchen_new)
    = round_half_away
        (prep_sum (items_ (run 10 orders_and_serves_run Kitchen_new)))
        (getCurrentSize (items_ (run 10 orders_and_serves_run Kitchen_new)))
  ∧ ((10 < 160)%nat →
     calculateElaboratePercentage (run 10 orders_and_serves_run Kitchen_new)
     = Double.of_hundredths
         (round_half_away
            (10000 * elaborate_total (items_ (run 10 orders_and_serves_run Kitchen_new)))
            (getCurrentSize (items_ (run 10 orders_and_serves_run Kitchen_new))))).
Proof.
  assert (Forall (λ o, match o with
                       | NewOrder _ | ServeDish _ => True
                       | _ => False
                       end) orders_and_serves_run) as Hops.
  { repeat constructor. }
  assert (overflow_free 10 orders_and_serves_run Kitchen_new) as Hfree.
  { vm_compute. repeat split; intros; discriminate. }
  assert (Z.of_nat 10 <= Int.MAX) as Hcap.
  { vm_compute. discriminate. }
  assert (items_ (run 10 orders_and_serves_run Kitchen_new) ≠ []) as Hne.
  { vm_compute. discriminate. }
  exact (conj Hops (conj Hfree (conj Hcap (conj Hne
           (rounded_queries_of_stored_dishes 10 orders_and_serves_run
              Hops Hfree Hcap Hne))))).
Defined.
